(** * Product catalogue service: the HTTP route layer of [service/routes.py]
      over the Product entity and its store.

    The route handlers are embedded from [service/routes.py].  The module
    [service.models] (the [Category] enumeration, the [Product] entity and its
    queries) and [service.common] (status constants, error handlers) are
    imported by the routes but their text is not part of the sources at hand;
    they are modelled from the specification and every such definition says
    so in its comment. *)

From Stdlib Require Import ZArith NArith Ascii String Decimal DecimalString DecimalN.
From stdpp Require Import base option list gmap strings fin_maps.

Local Open Scope Z_scope.
Local Open Scope string_scope.

(* ===================================================================== *)
(** ** Strings as Python uses them in the routes                         *)
(* ===================================================================== *)

(** [c.lower()] on one character.  Only the ASCII capitals change; every
    other byte (also the bytes of a multi-byte UTF-8 character) is kept, so
    that a comparison of the lowered text with an ASCII word decides as
    Python's does. *)
Definition lower_ascii (c : ascii) : ascii :=
  let n := N_of_ascii c in
  if ((65 <=? n) && (n <=? 90))%N then ascii_of_N (n + 32) else c.

(** [s.lower()] *)
Fixpoint lower (s : string) : string :=
  match s with
  | EmptyString => EmptyString
  | String c r => String (lower_ascii c) (lower r)
  end.

(** Truth value of an [Optional[str]] in an [if]: [None] and the empty
    string are false.  The value is handed on when it is true. *)
Definition truthy (o : option string) : option string :=
  match o with
  | Some EmptyString => None
  | Some s => Some s
  | None => None
  end.

(* ===================================================================== *)
(** ** The Category enumeration                                          *)
(* ===================================================================== *)

Module Category.

(** Modelled from the spec: the enumeration [Category] of
    [service/models.py] is missing; the members are the ones the data
    model names (UNKNOWN, FOOD, CLOTHS, HOUSEWARES, AUTOMOTIVE, TOOLS). *)
Inductive t : Set :=
| UNKNOWN | FOOD | CLOTHS | HOUSEWARES | AUTOMOTIVE | TOOLS.

Definition members : list t :=
  [UNKNOWN; FOOD; CLOTHS; HOUSEWARES; AUTOMOTIVE; TOOLS].

(** [member.name] *)
Definition name (c : t) : string :=
  match c with
  | UNKNOWN => "UNKNOWN"
  | FOOD => "FOOD"
  | CLOTHS => "CLOTHS"
  | HOUSEWARES => "HOUSEWARES"
  | AUTOMOTIVE => "AUTOMOTIVE"
  | TOOLS => "TOOLS"
  end.

(** [Category[key]]: the member of that exact name; [None] stands for the
    [KeyError] that the enumeration raises on any other key. *)
Definition getitem (key : string) : option t :=
  List.find (fun c => String.eqb (name c) key) members.

#[global] Instance eq_dec : EqDecision t.
Proof. solve_decision. Defined.

End Category.

(* ===================================================================== *)
(** ** Exact decimals and their text                                      *)
(* ===================================================================== *)

Module Dec.

(** Modelled from the spec: the price column of [service/models.py] is
    missing.  A price is an exact decimal: a sign, a coefficient and the
    number of digits after the point, [(-1)^neg * coeff / 10^scale].
    No binary floating point is involved anywhere. *)
Record t : Set := mk { neg : bool; coeff : N; scale : nat }.

#[global] Instance eq_dec : EqDecision t.
Proof. solve_decision. Defined.

Fixpoint zeros (k : nat) : string :=
  match k with
  | O => ""
  | S k => String "0" (zeros k)
  end.

(** [take k s] and [drop k s]: the slices [s[:k]] and [s[k:]]. *)
Fixpoint take (k : nat) (s : string) : string :=
  match k, s with
  | S k, String c r => String c (take k r)
  | _, _ => ""
  end.

Fixpoint drop (k : nat) (s : string) : string :=
  match k, s with
  | S k, String _ r => drop k r
  | _, _ => s
  end.

(** The digits of the coefficient, most significant first ("0" for 0). *)
Definition digits (n : N) : string := NilEmpty.string_of_uint (N.to_uint n).

(** Modelled from the spec: [str(price)], the text by which [serialize]
    renders the price exactly (the rendering itself is missing): positional
    notation, with as many digits after the point as the scale says and at
    least one before it. *)
Definition to_string (d : t) : string :=
  let ds := digits (coeff d) in
  let padded := zeros (S (scale d) - String.length ds) ++ ds in
  let k := (String.length padded - scale d)%nat in
  (if neg d then "-" else "") ++
  take k padded ++
  (match scale d with O => "" | S _ => String "." (drop k padded) end).

(** Cut a text at its first point: the part before it, and the part
    after it when there is a point. *)
Fixpoint split_point (s : string) : string * option string :=
  match s with
  | EmptyString => ("", None)
  | String c r =>
      if Ascii.eqb c "." then ("", Some r)
      else let '(a, b) := split_point r in (String c a, b)
  end.

(** Parse an unsigned decimal text: digits, then optionally a point and
    more digits.  At least one digit has to come before the point. *)
Definition of_unsigned (sign : bool) (s : string) : option t :=
  let '(ip, fp) := split_point s in
  let fp := default "" fp in
  match ip with
  | EmptyString => None
  | _ =>
      match NilEmpty.uint_of_string (ip ++ fp) with
      | Some u => Some (mk sign (N.of_uint u) (String.length fp))
      | None => None
      end
  end.

(** Modelled from the spec: [Decimal(text)], by which [deserialize] reads
    the price (the parsing itself is missing), for positional notation;
    [None] when the text is not such a decimal. *)
Definition of_string (s : string) : option t :=
  match s with
  | String "-" r => of_unsigned true r
  | _ => of_unsigned false s
  end.

(** A character that is one of "0" .. "9", and a text made of such. *)
Definition is_digit (c : ascii) : bool :=
  let n := N_of_ascii c in ((48 <=? n) && (n <=? 57))%N.

Fixpoint all_digits (s : string) : bool :=
  match s with
  | EmptyString => true
  | String c r => is_digit c && all_digits r
  end.

(** [Decimal(z)] for an integer. *)
Definition of_Z (z : Z) : t := mk (z <? 0)%Z (Z.abs_N z) 0.

End Dec.

(* ===================================================================== *)
(** ** JSON values, exceptions                                            *)
(* ===================================================================== *)

(** The values that occur in a product mapping. *)
Inductive jval : Set :=
| JNull
| JBool (b : bool)
| JInt (z : Z)
| JStr (s : string).

(** Modelled from the spec: the exception classes of [service/models.py]
    are missing; [ValidationError] and [DataError] are the two error classes
    of the entity (section 7 of the specification).  The other two are
    Python's and flask's own: [HTTPException] is what [abort(code)] raises,
    [KeyError] is what [Category[key]] raises. *)
Inductive exn : Set :=
| HTTPException (code : Z)
| KeyError (key : string)
| ValidationError (msg : string)
| DataError (msg : string).

#[global] Instance exn_ret : MRet (sum exn) := fun _ x => inr x.
#[global] Instance exn_bind : MBind (sum exn) := fun _ _ k m =>
  match m with
  | inl e => inl e
  | inr x => k x
  end.

(** [str(i)] for an integer and for an identifier that may be unset. *)
Definition str_Z (i : Z) : string := NilZero.string_of_int (Z.to_int i).

Definition str_id (o : option Z) : string :=
  match o with
  | Some i => str_Z i
  | None => "None"
  end.

(* ===================================================================== *)
(** ** The Product entity                                                 *)
(* ===================================================================== *)

Module Product.

(** Modelled from the spec: the class [Product] of [service/models.py] is
    missing.  The attributes are the ones of the data model; [id] is unset
    until the store assigns it. *)
Record t : Set := mk {
  id : option Z;
  name : string;
  description : option string;
  price : Dec.t;
  available : bool;
  category : Category.t
}.

#[global] Instance eq_dec : EqDecision t.
Proof. solve_decision. Defined.

(** [Product()]: an entity that is not persisted.  Its other attributes
    are not read before [deserialize] has either replaced all of them or
    raised. *)
Definition new : t := mk None "" None (Dec.mk false 0 0) false Category.UNKNOWN.

Definition set_id (i : option Z) (p : t) : t :=
  mk i (name p) (description p) (price p) (available p) (category p).

Definition jopt {A} (f : A -> jval) (o : option A) : jval :=
  match o with
  | Some x => f x
  | None => JNull
  end.

(** Modelled from the spec: [serialize()] gives the mapping with the keys
    id, name, description, price, available, category; the price is
    rendered as a string and the category as its symbolic name. *)
Definition serialize (p : t) : gmap string jval :=
  <["id" := jopt JInt (id p)]>
  (<["name" := JStr (name p)]>
  (<["description" := jopt JStr (description p)]>
  (<["price" := JStr (Dec.to_string (price p))]>
  (<["available" := JBool (available p)]>
  (<["category" := JStr (Category.name (category p))]> ∅))))).

(** [data[key]], a missing key being a validation error that names it. *)
Definition field (key : string) (data : gmap string jval) : exn + jval :=
  match data !! key with
  | Some v => inr v
  | None => inl (ValidationError ("Invalid product: missing " ++ key))
  end.

(** The five conversions of [deserialize].  The specification fixes the
    failures of [name] (not a string), [available] (not a boolean) and
    [category] (not the name of a member); [description] is optional text,
    so [null] is taken as unset; a price is read from its text, or from an
    integer, and a text that is no decimal is taken as an invalid field. *)
Definition as_name (v : jval) : exn + string :=
  match v with
  | JStr s => inr s
  | _ => inl (ValidationError "Invalid type for string [name]")
  end.

Definition as_description (v : jval) : exn + option string :=
  match v with
  | JStr s => inr (Some s)
  | JNull => inr None
  | _ => inl (ValidationError "Invalid type for string [description]")
  end.

Definition as_price (v : jval) : exn + Dec.t :=
  match v with
  | JStr s =>
      match Dec.of_string s with
      | Some d => inr d
      | None => inl (ValidationError "Invalid decimal [price]")
      end
  | JInt z => inr (Dec.of_Z z)
  | _ => inl (ValidationError "Invalid decimal [price]")
  end.

Definition as_available (v : jval) : exn + bool :=
  match v with
  | JBool b => inr b
  | _ => inl (ValidationError "Invalid type for boolean [available]")
  end.

Definition as_category (v : jval) : exn + Category.t :=
  match v with
  | JStr s =>
      match Category.getitem s with
      | Some c => inr c
      | None => inl (ValidationError ("Invalid attribute: " ++ s))
      end
  | _ => inl (ValidationError "Invalid attribute: category")
  end.

(** Modelled from the spec: [self.deserialize(data)] fills the five
    mutable attributes of the receiving entity from the mapping and fails
    with a [ValidationError] when [name] is missing or not a string, when
    [available] is not a boolean, when [category] is not the name of a
    member, or when another field is missing.  The key [id] of the
    mapping is not read: the identifier of the receiving entity stays as
    it is (the routes call it on [Product()] before [create()] and on the
    entity that [find] returned before [update()]). *)
Definition deserialize (self : t) (data : gmap string jval) : exn + t :=
  n ← field "name" data ≫= as_name;
  d ← field "description" data ≫= as_description;
  p ← field "price" data ≫= as_price;
  a ← field "available" data ≫= as_available;
  c ← field "category" data ≫= as_category;
  mret (mk (id self) n d p a c).

End Product.

(* ===================================================================== *)
(** ** The data store and the query layer                                 *)
(* ===================================================================== *)

Module Store.

(** Modelled from the spec: the columns of the product table of
    [service/models.py], which is missing; one row, without its primary
    key. *)
Record row : Set := mk_row {
  r_name : string;
  r_description : option string;
  r_price : Dec.t;
  r_available : bool;
  r_category : Category.t
}.

(** Modelled from the spec: the table of [service/models.py] is missing.
    The table is keyed by the primary key, so that a key identifies at
    most one row; [next_id] is the sequence from which the store takes
    the identifier of a new row. *)
Record t : Type := mk { rows : gmap Z row; next_id : Z }.

Definition empty : t := mk ∅ 1.

Definition to_row (p : Product.t) : row :=
  mk_row (Product.name p) (Product.description p) (Product.price p)
         (Product.available p) (Product.category p).

Definition of_row (i : Z) (r : row) : Product.t :=
  Product.mk (Some i) (r_name r) (r_description r) (r_price r)
             (r_available r) (r_category r).

(** Modelled from the spec: [Product.find(id)], the primary-key lookup. *)
Definition find (i : Z) (s : t) : option Product.t :=
  of_row i <$> rows s !! i.

(** Modelled from the spec: [Product.all()], every row. *)
Definition all (s : t) : list Product.t :=
  (fun kr => of_row kr.1 kr.2) <$> map_to_list (rows s).

(** Modelled from the spec: the three lookups, each an exact match on one
    column. *)
Definition find_by_name (n : string) (s : t) : list Product.t :=
  filter (fun p => Product.name p = n) (all s).

Definition find_by_category (c : Category.t) (s : t) : list Product.t :=
  filter (fun p => Product.category p = c) (all s).

Definition find_by_availability (b : bool) (s : t) : list Product.t :=
  filter (fun p => Product.available p = b) (all s).

(** Modelled from the spec: [create()] inserts a new row under the
    identifier that the store assigns and fails with a [DataError] on a
    violated constraint (here: the primary key is taken). *)
Definition create (p : Product.t) (s : t) : exn + (Product.t * t) :=
  let i := next_id s in
  match rows s !! i with
  | Some _ => inl (DataError "duplicate key value violates unique constraint")
  | None =>
      inr (Product.set_id (Some i) p,
           mk (<[i := to_row p]> (rows s)) (i + 1))
  end.

(** Modelled from the spec: [update()] requires the identifier to be set
    and a row of that identifier to exist (a [DataError] otherwise) and
    replaces all mutable columns of that row. *)
Definition update (p : Product.t) (s : t) : exn + t :=
  match Product.id p with
  | None => inl (DataError "Update called with empty ID field")
  | Some i =>
      match rows s !! i with
      | None => inl (DataError "no row was matched by the update")
      | Some _ => inr (mk (<[i := to_row p]> (rows s)) (next_id s))
      end
  end.

(** Modelled from the spec: [delete()] removes the row of that
    identifier and does nothing when there is none. *)
Definition delete (p : Product.t) (s : t) : t :=
  match Product.id p with
  | None => s
  | Some i => mk (base.delete i (rows s)) (next_id s)
  end.

(** Every key in use is below the sequence: then [create] cannot meet a
    taken key. *)
Definition keys_below_next (s : t) : Prop :=
  forall i r, rows s !! i = Some r -> (i < next_id s)%Z.

End Store.

(* ===================================================================== *)
(** ** Requests, responses and the handler monad                          *)
(* ===================================================================== *)

(** The calls a handler makes on the request body and on the model. *)
Inductive event : Set :=
| EvGetJson
| EvDeserialize
| EvFind (i : Z)
| EvAll
| EvFindByName (n : string)
| EvFindByCategory (c : Category.t)
| EvFindByAvailability (b : bool)
| EvCreate
| EvUpdate
| EvDelete.

(** What a handler runs against: the store, and the calls made so far
    (oldest first). *)
Record world : Type := World { db : Store.t; trace : list event }.

(** The part of flask's [request] that the handlers read.  [is_json] is
    the content type saying JSON; [json] is the body as a JSON parser reads
    it.  A body that no JSON parser reads is not a value of this type. *)
Record request : Type := Request {
  is_json : bool;                 (* request.is_json *)
  json : gmap string jval;        (* what request.get_json() parses *)
  args : gmap string string       (* request.args *)
}.

Inductive body : Type :=
| Text (s : string)
| JsonObject (o : gmap string jval)
| JsonArray (l : list (gmap string jval)).

(** The tuple a handler returns: body, status, headers. *)
Record response : Type := Response {
  r_body : body;
  r_status : Z;
  r_headers : list (string * string)
}.

(** A handler either returns or raises, and leaves a world behind. *)
Definition M (A : Type) : Type := world -> (exn + A) * world.

#[global] Instance M_ret : MRet M := fun _ x w => (inr x, w).
#[global] Instance M_bind : MBind M := fun _ _ k m w =>
  match m w with
  | (inl e, w') => (inl e, w')
  | (inr x, w') => k x w'
  end.

Definition raise {A} (e : exn) : M A := fun w => (inl e, w).

(** A call that reads the store; the call is recorded. *)
Definition query {A} (e : event) (f : Store.t -> A) : M A :=
  fun w => (inr (f (db w)), World (db w) (trace w ++ [e])).

(** A call that may fail and may change the store; the call is recorded
    whether it fails or not, the store changes only when it does not. *)
Definition command {A} (e : event) (f : Store.t -> exn + (A * Store.t)) : M A :=
  fun w =>
    match f (db w) with
    | inl x => (inl x, World (db w) (trace w ++ [e]))
    | inr (a, s) => (inr a, World s (trace w ++ [e]))
    end.

(** A call that only computes; the call is recorded. *)
Definition pure_call {A} (e : event) (r : exn + A) : M A :=
  fun w => (r, World (db w) (trace w ++ [e])).

(** Modelled from the spec: the constants of [service/common/status.py]. *)
Definition HTTP_200_OK : Z := 200.
Definition HTTP_201_CREATED : Z := 201.
Definition HTTP_204_NO_CONTENT : Z := 204.
Definition HTTP_400_BAD_REQUEST : Z := 400.
Definition HTTP_404_NOT_FOUND : Z := 404.
Definition HTTP_415_UNSUPPORTED_MEDIA_TYPE : Z := 415.
Definition HTTP_500_INTERNAL_SERVER_ERROR : Z := 500.

(** [abort(code)] *)
Definition abort {A} (code : Z) : M A := raise (HTTPException code).

(** [request.get_json()]: the parsed body when the content type is JSON;
    for any other content type flask raises the HTTP error of the
    unsupported media type, 415 (its releases before 2.3 answer 400), so
    that nothing of the handler after this call is run. *)
Definition get_json (r : request) : M (gmap string jval) :=
  pure_call EvGetJson
    (if is_json r then inr (json r)
     else inl (HTTPException HTTP_415_UNSUPPORTED_MEDIA_TYPE)).

(** The methods of the model as the handlers call them. *)
Definition deserialize (self : Product.t) (data : gmap string jval) : M Product.t :=
  pure_call EvDeserialize (Product.deserialize self data).

Definition create (p : Product.t) : M Product.t :=
  command EvCreate (Store.create p).

Definition update (p : Product.t) : M unit :=
  command EvUpdate (fun s => s' ← Store.update p s; mret (tt, s')).

Definition delete (p : Product.t) : M unit :=
  command EvDelete (fun s => inr (tt, Store.delete p s)).

Definition find (i : Z) : M (option Product.t) :=
  query (EvFind i) (Store.find i).

Definition all : M (list Product.t) :=
  query EvAll Store.all.

Definition find_by_name (n : string) : M (list Product.t) :=
  query (EvFindByName n) (Store.find_by_name n).

Definition find_by_category (c : Category.t) : M (list Product.t) :=
  query (EvFindByCategory c) (Store.find_by_category c).

Definition find_by_availability (b : bool) : M (list Product.t) :=
  query (EvFindByAvailability b) (Store.find_by_availability b).

(** [Category[key]] inside a handler: the member, or [KeyError]. *)
Definition Category_getitem (key : string) : M Category.t :=
  match Category.getitem key with
  | Some c => mret c
  | None => raise (KeyError key)
  end.

(* ===================================================================== *)
(** ** The route handlers of [service/routes.py]                          *)
(* ===================================================================== *)

(** GET / *)
Definition index : M response :=
  mret (Response (Text "Product Catalog Administration") HTTP_200_OK []).

(** GET /health *)
Definition health : M response :=
  mret (Response (JsonObject {["message" := JStr "OK"]}) HTTP_200_OK []).

(** POST /products *)
Definition create_products (request : request) : M response :=
  _ ← (if negb (is_json request)
       then abort HTTP_415_UNSUPPORTED_MEDIA_TYPE
       else mret tt);
  data ← get_json request;
  product ← deserialize Product.new data;
  product ← create product;
  mret (Response (JsonObject (Product.serialize product))
                 HTTP_201_CREATED
                 [("Location", "/products/" ++ str_id (Product.id product))]).

(** GET /products *)
Definition list_products (request : request) : M response :=
  let name := args request !! "name" in
  let category := args request !! "category" in
  let available := args request !! "available" in
  products ←
    match truthy name with
    | Some name => find_by_name name
    | None =>
        match truthy category with
        | Some category =>
            c ← Category_getitem category; find_by_category c
        | None =>
            match truthy available with
            | Some available =>
                find_by_availability (String.eqb (lower available) "true")
            | None => all
            end
        end
    end;
  mret (Response (JsonArray (Product.serialize <$> products)) HTTP_200_OK []).

(** GET /products/<int:product_id> *)
Definition get_products (product_id : Z) : M response :=
  product ← find product_id;
  match product with
  | None => abort HTTP_404_NOT_FOUND
  | Some product =>
      mret (Response (JsonObject (Product.serialize product)) HTTP_200_OK [])
  end.

(** PUT /products/<int:product_id> *)
Definition update_products (product_id : Z) (request : request) : M response :=
  product ← find product_id;
  match product with
  | None => abort HTTP_404_NOT_FOUND
  | Some product =>
      data ← get_json request;
      product ← deserialize product data;
      _ ← update product;
      mret (Response (JsonObject (Product.serialize product)) HTTP_200_OK [])
  end.

(** DELETE /products/<int:product_id> *)
Definition delete_products (product_id : Z) : M response :=
  product ← find product_id;
  match product with
  | None => abort HTTP_404_NOT_FOUND
  | Some product =>
      _ ← delete product;
      mret (Response (Text "") HTTP_204_NO_CONTENT [])
  end.

(** Modelled from the spec: the error handlers of [service/common] are
    missing.  The status that reaches the client is the one the handler
    returned, the code of an [abort], 400 for a validation error (section 7
    of the specification) and the server error for every other exception
    that leaves the handler. *)
Definition http_status (r : exn + response) : Z :=
  match r with
  | inr resp => r_status resp
  | inl (HTTPException code) => code
  | inl (ValidationError _) => HTTP_400_BAD_REQUEST
  | inl (KeyError _) => HTTP_500_INTERNAL_SERVER_ERROR
  | inl (DataError _) => HTTP_500_INTERNAL_SERVER_ERROR
  end.

(** The client side of one exchange: the status and the world after it. *)
Definition serve (h : M response) (w : world) : Z * world :=
  let '(r, w') := h w in (http_status r, w').

(* ===================================================================== *)
(** ** Vocabulary of the statements                                       *)
(* ===================================================================== *)

(** The world after one more call. *)
Definition after (w : world) (e : event) : world :=
  World (db w) (trace w ++ [e]).

(** The same request with other query arguments. *)
Definition with_args (a : gmap string string) (r : request) : request :=
  Request (is_json r) (json r) a.

(** An argument that an [if] takes as false: not given, or given empty. *)
Definition falsy (o : option string) : Prop := o = None \/ o = Some "".

(** Sample data: a product as a client describes it, a catalogue that
    holds it under the identifier 1, and some requests. *)
Definition hammer : Product.t :=
  Product.mk None "Hammer" (Some "steel") (Dec.mk false 999 2) true Category.TOOLS.

Definition catalogue : world :=
  World (Store.mk {[1 := Store.to_row hammer]} 2) [].

(** The same hammer in brass, as a client that took it from elsewhere
    describes it. *)
Definition brass_hammer : Product.t :=
  Product.mk (Some 99) "Hammer" (Some "brass") (Dec.mk false 1250 2) false
             Category.TOOLS.

Definition get_with (a : gmap string string) : request := Request false ∅ a.

Definition put_of (p : Product.t) : request :=
  Request true (Product.serialize p) ∅.

(* ===================================================================== *)
(** ** The routing table and the test client                              *)
(* ===================================================================== *)

(** One request as the decorators [@app.route] of [service/routes.py]
    tell them apart: the method, the path with its identifier, and what
    the handler reads of the request. *)
Inductive call : Type :=
| GET_index
| GET_health
| POST_products (r : request)
| GET_products (r : request)
| GET_product (product_id : Z)
| PUT_product (product_id : Z) (r : request)
| DELETE_product (product_id : Z).

(** The handler that the routing table gives to a request. *)
Definition dispatch (c : call) : M response :=
  match c with
  | GET_index => index
  | GET_health => health
  | POST_products r => create_products r
  | GET_products r => list_products r
  | GET_product i => get_products i
  | PUT_product i r => update_products i r
  | DELETE_product i => delete_products i
  end.

(** A client that sends requests one after the other: the statuses it
    sees, and the world it leaves. *)
Fixpoint run (cs : list call) (w : world) : list Z * world :=
  match cs with
  | [] => ([], w)
  | c :: cs =>
      let '(st, w1) := serve (dispatch c) w in
      let '(sts, w2) := run cs w1 in
      (st :: sts, w2)
  end.

(** The ways in which one request can leave the table: as it was, with a
    new row under the next identifier of the sequence, with another row
    under an identifier that was in use, or without one row. *)
Inductive store_step (s s' : Store.t) : Prop :=
| step_same : s' = s -> store_step s s'
| step_insert (row : Store.row) :
    Store.rows s !! Store.next_id s = None ->
    s' = Store.mk (<[Store.next_id s := row]> (Store.rows s)) (Store.next_id s + 1) ->
    store_step s s'
| step_replace (i : Z) (row : Store.row) :
    is_Some (Store.rows s !! i) ->
    s' = Store.mk (<[i := row]> (Store.rows s)) (Store.next_id s) ->
    store_step s s'
| step_delete (i : Z) :
    is_Some (Store.rows s !! i) ->
    s' = Store.mk (base.delete i (Store.rows s)) (Store.next_id s) ->
    store_step s s'.

(** [self.client.post(BASE_URL, json=data)] of [tests/test_routes.py] *)
Definition client_post_json (data : gmap string jval) : M response :=
  create_products (Request true data ∅).

(** [response.get_json()["id"]] *)
Definition response_id (r : exn + response) : option Z :=
  match r with
  | inr (Response (JsonObject o) _ _) =>
      match o !! "id" with
      | Some (JInt i) => Some i
      | _ => None
      end
  | _ => None
  end.

(** [_create_products] of [tests/test_routes.py], over the products that
    the factory hands out, one for each turn of the loop ([count] is the
    length of that list).  [None] is a failed [assertEqual]. *)
Fixpoint _create_products (factory : list Product.t) (w : world)
  : option (list Product.t) * world :=
  match factory with
  | [] => (Some [], w)
  | product :: factory =>
      let '(response, w1) := client_post_json (Product.serialize product) w in
      if negb (http_status response =? HTTP_201_CREATED)%Z then (None, w1)
      else
        let product := Product.set_id (response_id response) product in
        match _create_products factory w1 with
        | (Some products, w2) => (Some (product :: products), w2)
        | (None, w2) => (None, w2)
        end
  end.

(** [str(b)] for a boolean, as an f-string formats it. *)
Definition str_bool (b : bool) : string := if b then "True" else "False".

(** [len(response.get_json())] for a response that carries an array. *)
Definition response_len (r : exn + response) : option nat :=
  match r with
  | inr (Response (JsonArray l) _ _) => Some (length l)
  | _ => None
  end.

(* ===================================================================== *)
(** * Properties                                                          *)
(* ===================================================================== *)

(** ** Decimal text: printing then parsing gives the decimal back *)

Module DecFacts.
Import Dec.

Lemma length_app (a b : string) :
  String.length (a ++ b) = (String.length a + String.length b)%nat.
Proof. induction a as [|c a IH]; simpl; [reflexivity | now rewrite IH]. Qed.

Lemma length_zeros k : String.length (zeros k) = k.
Proof. induction k; simpl; congruence. Qed.

Lemma app_cons c (a b : string) : String c a ++ b = String c (a ++ b).
Proof. reflexivity. Qed.

Lemma app_empty_r (a : string) : a ++ "" = a.
Proof. induction a as [|c a IH]; [reflexivity|]. now rewrite app_cons, IH. Qed.

Lemma take_drop k s : take k s ++ drop k s = s.
Proof.
  revert s; induction k as [|k IH]; intros [|c r]; simpl; try reflexivity.
  now rewrite app_cons, IH.
Qed.

Lemma length_drop k s : String.length (drop k s) = (String.length s - k)%nat.
Proof.
  revert s; induction k as [|k IH]; intros [|c r]; simpl; auto.
Qed.

Lemma take_all s : take (String.length s) s = s.
Proof. induction s as [|c r IH]; simpl; congruence. Qed.

Lemma take_nonempty k s :
  (0 < k)%nat -> s <> "" -> take k s <> "".
Proof. destruct k, s; simpl; intros; try lia; congruence. Qed.

Lemma all_digits_app a b :
  all_digits (a ++ b) = all_digits a && all_digits b.
Proof.
  induction a as [|c a IH]; simpl; [reflexivity|].
  now rewrite IH, andb_assoc.
Qed.

Lemma all_digits_zeros k : all_digits (zeros k) = true.
Proof. induction k; simpl; auto. Qed.

Lemma all_digits_uint u : all_digits (NilEmpty.string_of_uint u) = true.
Proof. induction u; simpl; auto. Qed.

Lemma all_digits_take k s : all_digits s = true -> all_digits (take k s) = true.
Proof.
  revert s; induction k as [|k IH]; intros [|c r]; simpl; auto.
  intros [Hc Hr]%andb_true_iff. rewrite Hc; simpl. now apply IH.
Qed.

Lemma digit_not_point c : is_digit c = true -> Ascii.eqb c "." = false.
Proof.
  destruct c as [[] [] [] [] [] [] [] []]; vm_compute; congruence.
Qed.

Lemma split_point_digits s :
  all_digits s = true -> split_point s = (s, None).
Proof.
  induction s as [|c r IH]; simpl; [reflexivity|].
  intros [Hc Hr]%andb_true_iff.
  rewrite (digit_not_point c Hc), (IH Hr). reflexivity.
Qed.

Lemma split_point_app a b :
  all_digits a = true -> split_point (a ++ String "." b) = (a, Some b).
Proof.
  induction a as [|c r IH]; simpl; [reflexivity|].
  intros [Hc Hr]%andb_true_iff.
  rewrite (digit_not_point c Hc), (IH Hr). reflexivity.
Qed.

Lemma uint_of_zeros k s :
  NilEmpty.uint_of_string (zeros k ++ s)
  = Nat.iter k D0 <$> NilEmpty.uint_of_string s.
Proof.
  induction k as [|k IH].
  - change (zeros 0 ++ s) with s. now destruct (NilEmpty.uint_of_string s).
  - change (zeros (S k) ++ s) with (String "0" (zeros k ++ s)).
    simpl. rewrite IH. now destruct (NilEmpty.uint_of_string s).
Qed.

Lemma of_uint_zeros k u : N.of_uint (Nat.iter k D0 u) = N.of_uint u.
Proof. induction k; simpl; auto. Qed.

Lemma digits_nonempty n : digits n <> "".
Proof.
  unfold digits. destruct n as [|p]; simpl; [discriminate|].
  pose proof (DecimalPos.Unsigned.to_uint_nonnil p) as H.
  destruct (Pos.to_uint p); simpl; congruence.
Qed.

(** The padded digits parse back to the coefficient. *)
Lemma parse_padded k n :
  N.of_uint <$> NilEmpty.uint_of_string (zeros k ++ digits n) = Some n.
Proof.
  rewrite uint_of_zeros. unfold digits. rewrite NilEmpty.usu. simpl.
  now rewrite of_uint_zeros, DecimalN.Unsigned.of_to.
Qed.

Lemma of_string_digit c r :
  is_digit c = true -> of_string (String c r) = of_unsigned false (String c r).
Proof.
  destruct c as [[] [] [] [] [] [] [] []]; vm_compute is_digit;
    intros H; try discriminate H; reflexivity.
Qed.

Lemma of_unsigned_text sign n sc :
  let padded := zeros (S sc - String.length (digits n)) ++ digits n in
  let k := (String.length padded - sc)%nat in
  of_unsigned sign
    (take k padded ++ match sc with O => "" | S _ => String "." (drop k padded) end)
  = Some (mk sign n sc).
Proof.
  intros padded k.
  assert (Hd : all_digits padded = true).
  { unfold padded. rewrite all_digits_app, all_digits_zeros. simpl.
    apply all_digits_uint. }
  assert (Hlen : (sc < String.length padded)%nat).
  { unfold padded. rewrite length_app, length_zeros. lia. }
  assert (Hne : take k padded <> "").
  { apply take_nonempty; [unfold k; lia|].
    intros E. rewrite E in Hlen. simpl in Hlen. lia. }
  pose proof (parse_padded (S sc - String.length (digits n)) n) as Hp.
  fold padded in Hp.
  unfold of_unsigned. destruct sc as [|sc].
  - assert (k = String.length padded) as -> by (unfold k; lia).
    rewrite take_all in *. rewrite app_empty_r.
    rewrite (split_point_digits _ Hd). simpl. rewrite app_empty_r.
    destruct padded; [congruence|].
    destruct (NilEmpty.uint_of_string (String a padded)); simpl in Hp;
      [now inversion Hp | discriminate].
  - rewrite (split_point_app _ _ (all_digits_take k _ Hd)). simpl.
    rewrite take_drop, length_drop.
    destruct (take k padded) eqn:Et; [congruence|].
    destruct (NilEmpty.uint_of_string padded); simpl in Hp; [|discriminate].
    inversion Hp. f_equal. f_equal. unfold k. lia.
Qed.

(** [Decimal(str(d)) = d], for every decimal. *)
Lemma of_to_string d : of_string (to_string d) = Some d.
Proof.
  destruct d as [sg n sc]. unfold to_string. simpl neg; simpl coeff; simpl scale.
  cbv zeta.
  set (padded := zeros (S sc - String.length (digits n)) ++ digits n).
  set (k := (String.length padded - sc)%nat).
  pose proof (of_unsigned_text sg n sc) as H. cbv zeta in H.
  fold padded in H. fold k in H.
  destruct sg.
  - exact H.
  - change ("" ++ ?x) with x.
    assert (Hd : all_digits padded = true).
    { unfold padded. rewrite all_digits_app, all_digits_zeros. simpl.
      apply all_digits_uint. }
    assert (Hlen : (sc < String.length padded)%nat).
    { unfold padded. rewrite length_app, length_zeros. lia. }
    pose proof (all_digits_take k _ Hd) as Ht.
    destruct (take k padded) eqn:Et.
    + exfalso. revert Et. apply take_nonempty; [unfold k; lia|].
      intros E. rewrite E in Hlen. simpl in Hlen. lia.
    + simpl in Ht. apply andb_true_iff in Ht as [Ha _].
      rewrite app_cons in *. rewrite of_string_digit by exact Ha. exact H.
Qed.

End DecFacts.

(** ** The enumeration and its names *)

Module CategoryFacts.

(** Looking a member up by its own name finds it. *)
Lemma getitem_name c : Category.getitem (Category.name c) = Some c.
Proof. destruct c; reflexivity. Qed.

(** A lookup only succeeds on the exact name of the member it returns. *)
Lemma getitem_Some key c : Category.getitem key = Some c -> Category.name c = key.
Proof.
  unfold Category.getitem. intros H.
  apply List.find_some in H as [_ H]. now apply String.eqb_eq.
Qed.

Lemma getitem_None key :
  Category.getitem key = None <-> forall c, Category.name c <> key.
Proof.
  split.
  - intros H c E. rewrite <- E, getitem_name in H. discriminate.
  - intros H. destruct (Category.getitem key) as [c|] eqn:E; [|reflexivity].
    apply getitem_Some in E. now apply H in E.
Qed.

End CategoryFacts.

(** ** The entity: serialize and deserialize *)

Module ProductFacts.
Import Product.

Lemma serialize_name p : serialize p !! "name" = Some (JStr (name p)).
Proof. reflexivity. Qed.

Lemma serialize_description p :
  serialize p !! "description" = Some (jopt JStr (description p)).
Proof. reflexivity. Qed.

Lemma serialize_price p :
  serialize p !! "price" = Some (JStr (Dec.to_string (price p))).
Proof. reflexivity. Qed.

Lemma serialize_available p : serialize p !! "available" = Some (JBool (available p)).
Proof. reflexivity. Qed.

Lemma serialize_category p :
  serialize p !! "category" = Some (JStr (Category.name (category p))).
Proof. reflexivity. Qed.

Lemma serialize_id p : serialize p !! "id" = Some (jopt JInt (id p)).
Proof. reflexivity. Qed.

(** The keys of a serialized product are exactly the six of the data model. *)
Lemma serialize_dom p :
  dom (serialize p)
  = {["id"; "name"; "description"; "price"; "available"; "category"]}.
Proof. unfold serialize. rewrite !dom_insert_L, dom_empty_L. set_solver. Qed.

(** Deserializing into any entity what [serialize p] gave returns [p]'s
    five mutable attributes under the identifier of the receiver. *)
Lemma deserialize_serialize_into self p :
  deserialize self (serialize p) = inr (set_id (id self) p).
Proof.
  unfold deserialize, field.
  rewrite serialize_name, serialize_description, serialize_price,
    serialize_available, serialize_category.
  cbn [mbind exn_bind as_name as_available as_price as_category].
  rewrite DecFacts.of_to_string, CategoryFacts.getitem_name.
  destruct p as [i n [d|] pr a c]; reflexivity.
Qed.

(** The key [id] of the mapping plays no part in [deserialize]. *)
Lemma deserialize_ignores_id self data v :
  deserialize self (<["id" := v]> data) = deserialize self data.
Proof.
  unfold deserialize, field. now rewrite !lookup_insert_ne by discriminate.
Qed.

(** What [deserialize] returns has the identifier of the receiver, and
    its other attributes do not depend on the receiver. *)
Lemma deserialize_id self data q :
  deserialize self data = inr q -> id q = id self.
Proof.
  unfold deserialize, mbind, exn_bind, mret, exn_ret.
  repeat (match goal with |- context [match ?x with _ => _ end] => destruct x end;
          try discriminate).
  all: intros [= <-]; reflexivity.
Qed.

Lemma deserialize_receiver self self' data q :
  deserialize self data = inr q ->
  deserialize self' data = inr (set_id (id self') q).
Proof.
  unfold deserialize, mbind, exn_bind, mret, exn_ret.
  repeat (match goal with |- context [match ?x with _ => _ end] => destruct x end;
          try discriminate).
  all: intros [= <-]; reflexivity.
Qed.

Lemma set_id_id p : set_id (id p) p = p.
Proof. now destruct p. Qed.

End ProductFacts.

(** C3 (as amended).  For every product [p] and every entity that receives
    the mapping, deserializing what [serialize] gave returns a product
    with the name, description, price, availability and category of [p].
    Its identifier is the one already set on the receiving entity and is
    not read from the mapping: on [Product()] it is unset, whatever the
    identifier of [p]. *)
Theorem deserialize_serialize_roundtrip (p self : Product.t) :
  (exists q,
     Product.deserialize self (Product.serialize p) = inr q /\
     Product.name q = Product.name p /\
     Product.description q = Product.description p /\
     Product.price q = Product.price p /\
     Product.available q = Product.available p /\
     Product.category q = Product.category p /\
     Product.id q = Product.id self) /\
  Product.deserialize Product.new (Product.serialize p)
  = inr (Product.set_id None p).
Proof.
  split.
  - exists (Product.set_id (Product.id self) p).
    rewrite ProductFacts.deserialize_serialize_into.
    repeat (split; [reflexivity|]). reflexivity.
  - now rewrite ProductFacts.deserialize_serialize_into.
Qed.

(** ** The store: rows, keys and queries *)

Module StoreFacts.
Import Store.

Lemma of_row_to_row i p : of_row i (to_row p) = Product.set_id (Some i) p.
Proof. reflexivity. Qed.

Lemma to_row_of_row i r : to_row (of_row i r) = r.
Proof. now destruct r. Qed.

Lemma to_row_set_id o p : to_row (Product.set_id o p) = to_row p.
Proof. reflexivity. Qed.

Lemma of_row_inj i j r r' : of_row i r = of_row j r' -> i = j /\ r = r'.
Proof. destruct r, r'; unfold of_row; simpl. intros [=]; subst; auto. Qed.

(** A product that [find] returns carries the key it was found under. *)
Lemma find_id i s p : find i s = Some p -> Product.id p = Some i.
Proof.
  unfold find. destruct (rows s !! i); simpl; [|discriminate].
  now intros [= <-].
Qed.

Lemma find_None i s : find i s = None <-> rows s !! i = None.
Proof. unfold find. now destruct (rows s !! i). Qed.

(** [all] lists exactly what [find] can reach. *)
Lemma elem_of_all p s : p ∈ all s <-> exists i, find i s = Some p.
Proof.
  unfold all, find. rewrite list_elem_of_fmap. split.
  - intros [[i r] [-> H%elem_of_map_to_list]]. exists i. simpl. now rewrite H.
  - intros [i H]. destruct (rows s !! i) as [r|] eqn:E; [|discriminate].
    injection H as <-. exists (i, r). split; [reflexivity|].
    now apply elem_of_map_to_list.
Qed.

(** A filter over the table returns the reachable rows that satisfy it. *)
Lemma elem_of_filter_all (P : Product.t -> Prop) `{!forall x, Decision (P x)} s p :
  p ∈ filter P (all s) <-> (exists i, find i s = Some p) /\ P p.
Proof. rewrite list_elem_of_filter, elem_of_all. tauto. Qed.

(** No row is listed twice. *)
Lemma NoDup_all s : NoDup (all s).
Proof.
  unfold all. apply NoDup_fmap_2_strong; [|apply NoDup_map_to_list].
  intros [i r] [j r'] _ _ H. simpl in H.
  apply of_row_inj in H as [-> ->]. reflexivity.
Qed.

Lemma length_all s : length (all s) = size (rows s).
Proof. unfold all. now rewrite length_fmap, length_map_to_list. Qed.

(** What [create] does to the table. *)
Lemma create_inv p s p' s' :
  create p s = inr (p', s') ->
  rows s !! next_id s = None /\
  p' = Product.set_id (Some (next_id s)) p /\
  rows s' = <[next_id s := to_row p]> (rows s) /\
  next_id s' = (next_id s + 1)%Z.
Proof.
  unfold create. destruct (rows s !! next_id s) eqn:E; [discriminate|].
  intros [= <- <-]. auto.
Qed.

Lemma create_succeeds p s :
  keys_below_next s -> exists p' s', create p s = inr (p', s') /\ keys_below_next s'.
Proof.
  intros Hs. unfold create.
  destruct (rows s !! next_id s) as [r|] eqn:E.
  - apply Hs in E. lia.
  - eexists _, _. split; [reflexivity|].
    intros i r. simpl. rewrite lookup_insert. case_decide.
    + intros _. lia.
    + intros H'%Hs. lia.
Qed.

Lemma keys_below_next_empty : keys_below_next empty.
Proof. intros i r. unfold empty; simpl. now rewrite lookup_empty. Qed.

(** What [update] does to the table. *)
Lemma update_inv p s s' :
  update p s = inr s' ->
  exists i, Product.id p = Some i /\ is_Some (rows s !! i) /\
            rows s' = <[i := to_row p]> (rows s) /\ next_id s' = next_id s.
Proof.
  unfold update. destruct (Product.id p) as [i|]; [|discriminate].
  destruct (rows s !! i) eqn:E; [|discriminate].
  intros [= <-]. exists i. rewrite E. eauto.
Qed.

End StoreFacts.

(** C4.  When [create()] succeeds on a product, the product has been given
    an identifier, and [find] of that identifier returns a product equal to
    it in every field: identifier, name, description, price, availability
    and category (the last five being the ones the product had before). *)
Theorem find_after_create (p p' : Product.t) (s s' : Store.t) :
  Store.create p s = inr (p', s') ->
  exists i,
    Product.id p' = Some i /\
    Store.find i s' = Some p' /\
    Product.name p' = Product.name p /\
    Product.description p' = Product.description p /\
    Product.price p' = Product.price p /\
    Product.available p' = Product.available p /\
    Product.category p' = Product.category p.
Proof.
  intros (Hfree & -> & Hrows & Hnext)%StoreFacts.create_inv.
  exists (Store.next_id s). split; [reflexivity|]. split.
  - unfold Store.find. rewrite Hrows, lookup_insert_eq. reflexivity.
  - now destruct p.
Qed.

(** C5.  [find_by_name n] returns exactly the stored rows whose name is [n]
    (equality of strings, so case matters), each once; [find_by_category]
    and [find_by_availability] do the same for their column. *)
Theorem find_by_exact (s : Store.t) :
  (forall n p,
      p ∈ Store.find_by_name n s <->
      (exists i, Store.find i s = Some p) /\ Product.name p = n) /\
  (forall c p,
      p ∈ Store.find_by_category c s <->
      (exists i, Store.find i s = Some p) /\ Product.category p = c) /\
  (forall b p,
      p ∈ Store.find_by_availability b s <->
      (exists i, Store.find i s = Some p) /\ Product.available p = b) /\
  (forall n, NoDup (Store.find_by_name n s)) /\
  (forall c, NoDup (Store.find_by_category c s)) /\
  (forall b, NoDup (Store.find_by_availability b s)).
Proof.
  unfold Store.find_by_name, Store.find_by_category, Store.find_by_availability.
  split; [|split; [|split; [|split; [|split]]]]; intros.
  1-3: apply StoreFacts.elem_of_filter_all.
  all: apply NoDup_filter, StoreFacts.NoDup_all.
Qed.

(** Names that differ only in case are different names for the query. *)
Lemma find_by_name_case_sensitive (s : Store.t) (n : string) (p : Product.t) :
  Product.name p <> n -> p ∉ Store.find_by_name n s.
Proof.
  intros Hne Hin. unfold Store.find_by_name in Hin.
  apply StoreFacts.elem_of_filter_all in Hin as [_ E]. contradiction.
Qed.

(** ** The route handlers *)

Module RouteFacts.

Lemma find_run i w : find i w = (inr (Store.find i (db w)), after w (EvFind i)).
Proof. reflexivity. Qed.

Lemma bind_run {A B} (m : M A) (k : A -> M B) w :
  (m ≫= k) w = match m w with
               | (inl e, w') => (inl e, w')
               | (inr x, w') => k x w'
               end.
Proof. reflexivity. Qed.

(** [list_products] when the name filter is chosen. *)
Lemma list_by_name r w n :
  truthy (args r !! "name") = Some n ->
  list_products r w
  = (inr (Response (JsonArray (Product.serialize <$> Store.find_by_name n (db w)))
                   HTTP_200_OK []),
     after w (EvFindByName n)).
Proof. unfold list_products. intros ->. reflexivity. Qed.

(** ... when the category filter is chosen and the name is a member's. *)
Lemma list_by_category r w k c :
  truthy (args r !! "name") = None ->
  truthy (args r !! "category") = Some k ->
  Category.getitem k = Some c ->
  list_products r w
  = (inr (Response (JsonArray (Product.serialize <$> Store.find_by_category c (db w)))
                   HTTP_200_OK []),
     after w (EvFindByCategory c)).
Proof.
  unfold list_products, Category_getitem. intros -> -> Hc.
  cbn [mbind M_bind]. rewrite Hc. reflexivity.
Qed.

(** ... when the category filter is chosen and the name is no member's:
    the lookup in the enumeration raises before any query is made. *)
Lemma list_by_unknown_category r w k :
  truthy (args r !! "name") = None ->
  truthy (args r !! "category") = Some k ->
  Category.getitem k = None ->
  list_products r w = (inl (KeyError k), w).
Proof.
  unfold list_products, Category_getitem. intros -> -> Hc.
  cbn [mbind M_bind]. rewrite Hc. reflexivity.
Qed.

(** ... when the availability filter is chosen. *)
Lemma list_by_availability r w a :
  truthy (args r !! "name") = None ->
  truthy (args r !! "category") = None ->
  truthy (args r !! "available") = Some a ->
  list_products r w
  = (inr (Response
            (JsonArray (Product.serialize <$>
               Store.find_by_availability (String.eqb (lower a) "true") (db w)))
            HTTP_200_OK []),
     after w (EvFindByAvailability (String.eqb (lower a) "true"))).
Proof. unfold list_products. intros -> -> ->. reflexivity. Qed.

(** ... when no filter is chosen. *)
Lemma list_all r w :
  truthy (args r !! "name") = None ->
  truthy (args r !! "category") = None ->
  truthy (args r !! "available") = None ->
  list_products r w
  = (inr (Response (JsonArray (Product.serialize <$> Store.all (db w)))
                   HTTP_200_OK []),
     after w EvAll).
Proof. unfold list_products. intros -> -> ->. reflexivity. Qed.

Lemma truthy_Some o s : truthy o = Some s <-> o = Some s /\ s <> "".
Proof.
  destruct o as [[|c r]|]; simpl; split; try (intros [? ?]); try intros ?;
    try discriminate; try congruence; split; congruence.
Qed.

Lemma truthy_None o : truthy o = None <-> o = None \/ o = Some "".
Proof.
  destruct o as [[|c r]|]; simpl; split; intros; try tauto; try discriminate.
  destruct H; discriminate.
Qed.

End RouteFacts.

(** C6.  A GET, PUT or DELETE of /products/{id} for which no row has that
    identifier is answered with status 404, and the store is as before; the
    only call made is the lookup of the identifier. *)
Theorem not_found_leaves_store (w : world) (product_id : Z) (r : request) :
  Store.find product_id (db w) = None ->
  serve (get_products product_id) w = (404, after w (EvFind product_id)) /\
  serve (update_products product_id r) w = (404, after w (EvFind product_id)) /\
  serve (delete_products product_id) w = (404, after w (EvFind product_id)) /\
  db (after w (EvFind product_id)) = db w.
Proof.
  intros H.
  unfold serve, get_products, update_products, delete_products.
  rewrite !RouteFacts.bind_run, RouteFacts.find_run, H.
  repeat split.
Qed.

(** C7.  A POST to /products whose body is not JSON content-typed is
    answered with status 415; nothing has been called by then, neither the
    parsing of the body nor the model, and the store is as before. *)
Theorem not_json_is_rejected_first (w : world) (r : request) :
  is_json r = false ->
  create_products r w = (inl (HTTPException 415), w) /\
  serve (create_products r) w = (415, w).
Proof.
  intros H. unfold serve, create_products.
  rewrite !RouteFacts.bind_run, H. split; reflexivity.
Qed.

Module UpdateFacts.

Lemma update_run p w :
  update p w
  = match Store.update p (db w) with
    | inl e => (inl e, after w EvUpdate)
    | inr s => (inr tt, World s (trace w ++ [EvUpdate]))
    end.
Proof.
  unfold update, command. destruct (Store.update p (db w)); reflexivity.
Qed.

Lemma store_update_found i p0 p s :
  Store.find i s = Some p0 -> Product.id p = Some i ->
  Store.update p s
  = inr (Store.mk (<[i := Store.to_row p]> (Store.rows s)) (Store.next_id s)).
Proof.
  unfold Store.find, Store.update. intros H ->.
  destruct (Store.rows s !! i); [reflexivity | discriminate].
Qed.

End UpdateFacts.

(** C8.  For a stored product and a valid payload (JSON content-typed,
    and one that deserializes, say to [q]), PUT /products/{id} answers 200
    and leaves under that identifier the five mutable fields of [q]; the
    identifier of the product is the same before and after, whatever the
    payload says under the key id; every other row and the identifier
    sequence are as before. *)
Theorem update_replaces_fields_keeps_id
    (w : world) (i : Z) (r : request) (p0 q : Product.t) :
  Store.find i (db w) = Some p0 ->
  is_json r = true ->
  Product.deserialize Product.new (json r) = inr q ->
  exists w',
    update_products i r w
    = (inr (Response (JsonObject (Product.serialize (Product.set_id (Some i) q)))
                     HTTP_200_OK []), w') /\
    Product.id p0 = Some i /\
    Store.find i (db w') = Some (Product.set_id (Some i) q) /\
    (forall j, j <> i -> Store.find j (db w') = Store.find j (db w)) /\
    Store.next_id (db w') = Store.next_id (db w) /\
    trace w' = (trace w ++ [EvFind i; EvGetJson; EvDeserialize; EvUpdate])%list.
Proof.
  intros Hfind Hjson Hq.
  pose proof (StoreFacts.find_id _ _ _ Hfind) as Hid.
  pose proof (ProductFacts.deserialize_receiver _ p0 _ _ Hq) as Hd.
  rewrite Hid in Hd.
  set (p1 := Product.set_id (Some i) q) in *.
  eexists. split.
  - unfold update_products.
    rewrite RouteFacts.bind_run, RouteFacts.find_run, Hfind.
    rewrite RouteFacts.bind_run. unfold get_json, pure_call at 1.
    rewrite Hjson.
    rewrite RouteFacts.bind_run. unfold deserialize, pure_call at 1.
    cbn [db trace after]. rewrite Hd.
    rewrite RouteFacts.bind_run, UpdateFacts.update_run. cbn [db trace].
    rewrite (UpdateFacts.store_update_found i p0 p1 (db w) Hfind eq_refl).
    reflexivity.
  - cbn [db trace]. split; [exact Hid|]. split; [|split; [|split]].
    + unfold Store.find. cbn [Store.rows]. rewrite lookup_insert_eq.
      reflexivity.
    + intros j Hj. unfold Store.find. cbn [Store.rows].
      now rewrite lookup_insert_ne by congruence.
    + reflexivity.
    + rewrite <- !app_assoc. reflexivity.
Qed.

Module ArgFacts.
Import RouteFacts.

Lemma falsy_truthy o : falsy o -> truthy o = None.
Proof. intros [-> | ->]; reflexivity. Qed.

Lemma given_truthy o s : o = Some s -> s <> "" -> truthy o = Some s.
Proof. intros -> H. destruct s; [contradiction | reflexivity]. Qed.

Lemma eqb_bool_decide (a b : string) : String.eqb a b = bool_decide (a = b).
Proof.
  destruct (String.eqb_spec a b) as [E|E].
  - now rewrite bool_decide_eq_true_2.
  - now rewrite bool_decide_eq_false_2.
Qed.

(** An argument given empty and the same argument not given at all are
    the same to every [if] of the handler. *)
Lemma truthy_empty_absent (a : gmap string string) (k x : string) :
  truthy (<[k := ""]> a !! x) = truthy (base.delete k a !! x).
Proof.
  destruct (decide (k = x)) as [->|Hne].
  - now rewrite lookup_insert_eq, lookup_delete_eq.
  - now rewrite lookup_insert_ne, lookup_delete_ne.
Qed.

(** [list_products] reads its request through [truthy] only. *)
Lemma list_products_truthy r r' w :
  truthy (args r !! "name") = truthy (args r' !! "name") ->
  truthy (args r !! "category") = truthy (args r' !! "category") ->
  truthy (args r !! "available") = truthy (args r' !! "available") ->
  list_products r w = list_products r' w.
Proof.
  unfold list_products. intros -> -> ->. reflexivity.
Qed.

End ArgFacts.

(** C9 (as amended).  When GET /products filters by availability (no name
    and no category in effect, [available] given with a non-empty value
    [a]), the boolean handed to the query is true exactly when the lowered
    [a] is the string "true"; every other non-empty value gives false, and
    the answer is a 200 in both cases, never an error. *)
Theorem available_is_lowered_equal_true (r : request) (w : world) (a : string) :
  falsy (args r !! "name") ->
  falsy (args r !! "category") ->
  args r !! "available" = Some a ->
  a <> "" ->
  list_products r w
  = (inr (Response
            (JsonArray (Product.serialize <$>
               Store.find_by_availability (bool_decide (lower a = "true")) (db w)))
            HTTP_200_OK []),
     after w (EvFindByAvailability (bool_decide (lower a = "true")))).
Proof.
  intros Hn Hc Ha Hne.
  rewrite (RouteFacts.list_by_availability r w a);
    auto using ArgFacts.falsy_truthy, ArgFacts.given_truthy.
  now rewrite ArgFacts.eqb_bool_decide.
Qed.

(** C10.  A query argument given with the empty string is treated as if it
    were not given: the handler answers the request exactly as it answers
    the one without that argument, so GET /products?name= lists every
    stored product. *)
Theorem empty_argument_is_absent (r : request) (w : world) :
  (forall k : string,
      list_products (with_args (<[k := ""]> (args r)) r) w
      = list_products (with_args (base.delete k (args r)) r) w) /\
  list_products (with_args {["name" := ""]} r) w
  = (inr (Response (JsonArray (Product.serialize <$> Store.all (db w)))
                   HTTP_200_OK []),
     after w EvAll).
Proof.
  split.
  - intros k. apply ArgFacts.list_products_truthy;
      unfold with_args; cbn [args];
      apply ArgFacts.truthy_empty_absent.
  - apply RouteFacts.list_all; reflexivity.
Qed.

(** C2 (as amended).  GET /products applies at most one criterion, chosen
    by precedence among the arguments given non-empty: a name selects
    [find_by_name]; otherwise a category is the only criterion considered,
    and selects [find_by_category] of the member it names, while for a
    value that names no member no query is made and [available] is not
    consulted; otherwise an [available] selects [find_by_availability] of
    the parsed boolean; otherwise, all three being absent or empty, [all].
    Whatever the request, at most one query is made and the store is as
    before. *)
Theorem list_products_precedence (r : request) (w : world) :
  let ok (l : list Product.t) (e : event) : (exn + response) * world :=
    (inr (Response (JsonArray (Product.serialize <$> l)) HTTP_200_OK []),
     after w e) in
  (forall n,
      args r !! "name" = Some n -> n <> "" ->
      list_products r w = ok (Store.find_by_name n (db w)) (EvFindByName n)) /\
  (forall k c,
      falsy (args r !! "name") ->
      args r !! "category" = Some k -> k <> "" ->
      Category.getitem k = Some c ->
      list_products r w
      = ok (Store.find_by_category c (db w)) (EvFindByCategory c)) /\
  (forall k,
      falsy (args r !! "name") ->
      args r !! "category" = Some k -> k <> "" ->
      Category.getitem k = None ->
      (list_products r w).2 = w) /\
  (forall a,
      falsy (args r !! "name") ->
      falsy (args r !! "category") ->
      args r !! "available" = Some a -> a <> "" ->
      list_products r w
      = ok (Store.find_by_availability (String.eqb (lower a) "true") (db w))
           (EvFindByAvailability (String.eqb (lower a) "true"))) /\
  (falsy (args r !! "name") ->
   falsy (args r !! "category") ->
   falsy (args r !! "available") ->
   list_products r w = ok (Store.all (db w)) EvAll) /\
  (exists calls,
      trace (list_products r w).2 = (trace w ++ calls)%list /\
      (length calls <= 1)%nat /\
      db (list_products r w).2 = db w).
Proof.
  cbv zeta. split; [|split; [|split; [|split; [|split]]]]; intros.
  - apply RouteFacts.list_by_name. now apply ArgFacts.given_truthy.
  - apply (RouteFacts.list_by_category r w k c);
      auto using ArgFacts.falsy_truthy, ArgFacts.given_truthy.
  - rewrite (RouteFacts.list_by_unknown_category r w k);
      auto using ArgFacts.falsy_truthy, ArgFacts.given_truthy.
  - apply RouteFacts.list_by_availability;
      auto using ArgFacts.falsy_truthy, ArgFacts.given_truthy.
  - apply RouteFacts.list_all; auto using ArgFacts.falsy_truthy.
  - destruct (truthy (args r !! "name")) as [n|] eqn:En.
    { rewrite (RouteFacts.list_by_name r w n En).
      exists [EvFindByName n]. repeat split. simpl. lia. }
    destruct (truthy (args r !! "category")) as [k|] eqn:Ek.
    + destruct (Category.getitem k) as [c|] eqn:Ec.
      * rewrite (RouteFacts.list_by_category r w k c En Ek Ec).
        exists [EvFindByCategory c]. repeat split. simpl. lia.
      * rewrite (RouteFacts.list_by_unknown_category r w k En Ek Ec).
        exists []. cbn [snd]. rewrite app_nil_r. repeat split. simpl. lia.
    + destruct (truthy (args r !! "available")) as [a|] eqn:Ea.
      * rewrite (RouteFacts.list_by_availability r w a En Ek Ea).
        eexists [_]. repeat split. simpl. lia.
      * rewrite (RouteFacts.list_all r w En Ek Ea).
        exists [EvAll]. repeat split. simpl. lia.
Qed.

(** C1 (as amended).  A GET /products whose category is given non-empty
    and is not the name of a member is answered with 200 when a name is
    given non-empty as well: the name filter comes first and the category
    is never looked up.  The category is looked up in the enumeration only
    when the name is absent or empty, and a member's name is then answered
    with 200. *)
Theorem category_checked_only_without_name (r : request) (w : world) :
  (forall n k,
      args r !! "name" = Some n -> n <> "" ->
      args r !! "category" = Some k -> k <> "" ->
      Category.getitem k = None ->
      serve (list_products r) w = (200, after w (EvFindByName n))) /\
  (forall k c,
      falsy (args r !! "name") ->
      args r !! "category" = Some k -> k <> "" ->
      Category.getitem k = Some c ->
      serve (list_products r) w = (200, after w (EvFindByCategory c))).
Proof.
  split; intros; unfold serve.
  - rewrite (RouteFacts.list_by_name r w n); [reflexivity|].
    now apply ArgFacts.given_truthy.
  - rewrite (RouteFacts.list_by_category r w k c);
      auto using ArgFacts.falsy_truthy, ArgFacts.given_truthy.
Qed.

(** What the handler does with a category that is no member's name when
    the name is absent or empty: it raises [KeyError] out of the lookup in
    the enumeration, before any query; no handler of the service turns
    that exception into a 400. *)
Lemma unknown_category_raises (r : request) (w : world) (k : string) :
  falsy (args r !! "name") ->
  args r !! "category" = Some k -> k <> "" ->
  Category.getitem k = None ->
  list_products r w = (inl (KeyError k), w) /\
  serve (list_products r) w = (HTTP_500_INTERNAL_SERVER_ERROR, w).
Proof.
  intros Hn Hk Hne Hc.
  assert (E : list_products r w = (inl (KeyError k), w)).
  { apply RouteFacts.list_by_unknown_category;
      auto using ArgFacts.falsy_truthy, ArgFacts.given_truthy. }
  split; [exact E|]. unfold serve. now rewrite E.
Qed.

(** ** The statements at sample inputs *)

(** C3, as stated, fails: the brass hammer has its identifier set (99);
    serialized and read back into [Product()], as POST /products does, it
    comes back with the identifier unset. *)
Lemma roundtrip_into_new_loses_id :
  Product.id brass_hammer = Some 99 /\
  exists q,
    Product.deserialize Product.new (Product.serialize brass_hammer) = inr q /\
    Product.id q = None /\
    Product.id q <> Product.id brass_hammer.
Proof.
  split; [reflexivity|]. exists (Product.set_id None brass_hammer).
  split; [vm_compute; reflexivity|]. split; [reflexivity|]. discriminate.
Qed.

(** Read back into an entity that carries the identifier 99, as PUT
    /products/99 does, the brass hammer comes back whole. *)
Example roundtrip_into_stored :
  Product.deserialize (Product.set_id (Some 99) hammer)
    (Product.serialize brass_hammer) = inr brass_hammer.
Proof. vm_compute. reflexivity. Qed.

Example roundtrip_into_new :
  Product.deserialize Product.new (Product.serialize brass_hammer)
  = inr (Product.set_id None brass_hammer).
Proof. vm_compute. reflexivity. Qed.

(** Creating the hammer in the empty store and finding it again. *)
Lemma find_after_create_hammer :
  Store.create hammer Store.empty
  = inr (Product.set_id (Some 1) hammer, db catalogue) /\
  exists i,
    Product.id (Product.set_id (Some 1) hammer) = Some i /\
    Store.find i (db catalogue) = Some (Product.set_id (Some 1) hammer) /\
    Product.name (Product.set_id (Some 1) hammer) = Product.name hammer /\
    Product.description (Product.set_id (Some 1) hammer) = Product.description hammer /\
    Product.price (Product.set_id (Some 1) hammer) = Product.price hammer /\
    Product.available (Product.set_id (Some 1) hammer) = Product.available hammer /\
    Product.category (Product.set_id (Some 1) hammer) = Product.category hammer.
Proof.
  split; [reflexivity|].
  apply (find_after_create hammer _ Store.empty (db catalogue)). reflexivity.
Defined.

(** Identifier 7 is not in the catalogue. *)
Lemma not_found_in_catalogue :
  Store.find 7 (db catalogue) = None /\
  (serve (get_products 7) catalogue = (404, after catalogue (EvFind 7)) /\
   serve (update_products 7 (put_of hammer)) catalogue
   = (404, after catalogue (EvFind 7)) /\
   serve (delete_products 7) catalogue = (404, after catalogue (EvFind 7)) /\
   db (after catalogue (EvFind 7)) = db catalogue).
Proof.
  split; [reflexivity|].
  apply (not_found_leaves_store catalogue 7 (put_of hammer)). reflexivity.
Defined.

(** A POST that is not JSON content-typed, whatever its body. *)
Lemma not_json_on_catalogue :
  is_json (get_with ∅) = false /\
  (create_products (get_with ∅) catalogue = (inl (HTTPException 415), catalogue) /\
   serve (create_products (get_with ∅)) catalogue = (415, catalogue)).
Proof.
  split; [reflexivity|].
  apply (not_json_is_rejected_first catalogue (get_with ∅)). reflexivity.
Defined.

(** The brass hammer sent to PUT /products/1: the payload carries a foreign
    identifier, which the update leaves aside. *)
Lemma update_hammer_to_brass :
  Store.find 1 (db catalogue) = Some (Product.set_id (Some 1) hammer) /\
  is_json (put_of brass_hammer) = true /\
  Product.deserialize Product.new (json (put_of brass_hammer))
  = inr (Product.set_id None brass_hammer) /\
  exists w',
    update_products 1 (put_of brass_hammer) catalogue
    = (inr (Response
              (JsonObject (Product.serialize
                 (Product.set_id (Some 1) (Product.set_id None brass_hammer))))
              HTTP_200_OK []), w') /\
    Product.id (Product.set_id (Some 1) hammer) = Some 1 /\
    Store.find 1 (db w')
    = Some (Product.set_id (Some 1) (Product.set_id None brass_hammer)) /\
    (forall j, j <> 1 -> Store.find j (db w') = Store.find j (db catalogue)) /\
    Store.next_id (db w') = Store.next_id (db catalogue) /\
    trace w'
    = (trace catalogue ++ [EvFind 1; EvGetJson; EvDeserialize; EvUpdate])%list.
Proof.
  split; [reflexivity|]. split; [reflexivity|]. split; [vm_compute; reflexivity|].
  apply (update_replaces_fields_keeps_id catalogue 1 (put_of brass_hammer)
           (Product.set_id (Some 1) hammer) (Product.set_id None brass_hammer)).
  - reflexivity.
  - reflexivity.
  - vm_compute. reflexivity.
Defined.

(** GET /products?available=TRUE *)
Lemma available_upper_case_is_true :
  falsy (args (get_with {["available" := "TRUE"]}) !! "name") /\
  falsy (args (get_with {["available" := "TRUE"]}) !! "category") /\
  args (get_with {["available" := "TRUE"]}) !! "available" = Some "TRUE" /\
  "TRUE" <> "" /\
  list_products (get_with {["available" := "TRUE"]}) catalogue
  = (inr (Response
            (JsonArray (Product.serialize <$>
               Store.find_by_availability (bool_decide (lower "TRUE" = "true"))
                 (db catalogue)))
            HTTP_200_OK []),
     after catalogue (EvFindByAvailability (bool_decide (lower "TRUE" = "true")))).
Proof.
  split; [left; reflexivity|]. split; [left; reflexivity|].
  split; [reflexivity|]. split; [discriminate|].
  apply (available_is_lowered_equal_true (get_with {["available" := "TRUE"]})
           catalogue "TRUE");
    [left; reflexivity | left; reflexivity | reflexivity | discriminate].
Defined.

(** One request for each branch of the precedence chain. *)
Lemma list_products_precedence_samples :
  list_products (get_with (<["name" := "Hammer"]> {["available" := "false"]})) catalogue
  = (inr (Response (JsonArray (Product.serialize <$>
                      Store.find_by_name "Hammer" (db catalogue)))
                   HTTP_200_OK []),
     after catalogue (EvFindByName "Hammer")) /\
  list_products (get_with (<["name" := ""]> {["category" := "TOOLS"]})) catalogue
  = (inr (Response (JsonArray (Product.serialize <$>
                      Store.find_by_category Category.TOOLS (db catalogue)))
                   HTTP_200_OK []),
     after catalogue (EvFindByCategory Category.TOOLS)) /\
  (list_products (get_with (<["category" := "BOGUS"]> {["available" := "true"]}))
                 catalogue).2 = catalogue /\
  list_products (get_with {["available" := "no"]}) catalogue
  = (inr (Response (JsonArray (Product.serialize <$>
                      Store.find_by_availability (String.eqb (lower "no") "true")
                        (db catalogue)))
                   HTTP_200_OK []),
     after catalogue (EvFindByAvailability (String.eqb (lower "no") "true"))) /\
  list_products (get_with {["available" := ""]}) catalogue
  = (inr (Response (JsonArray (Product.serialize <$> Store.all (db catalogue)))
                   HTTP_200_OK []),
     after catalogue EvAll).
Proof.
  split; [|split; [|split; [|split]]].
  - apply (proj1 (list_products_precedence _ catalogue) "Hammer");
      [reflexivity | discriminate].
  - apply (proj1 (proj2 (list_products_precedence _ catalogue)) "TOOLS" Category.TOOLS);
      [right; reflexivity | reflexivity | discriminate | reflexivity].
  - apply (proj1 (proj2 (proj2 (list_products_precedence _ catalogue))) "BOGUS");
      [left; reflexivity | reflexivity | discriminate | reflexivity].
  - apply (proj1 (proj2 (proj2 (proj2 (list_products_precedence _ catalogue)))) "no");
      [left; reflexivity | left; reflexivity | reflexivity | discriminate].
  - apply (proj1 (proj2 (proj2 (proj2 (proj2 (list_products_precedence _ catalogue))))));
      [left; reflexivity | left; reflexivity | right; reflexivity].
Defined.

(** A name next to an unknown category, and a known category alone. *)
Lemma category_checked_only_without_name_samples :
  serve (list_products (get_with (<["name" := "Hammer"]> {["category" := "BOGUS"]})))
        catalogue
  = (200, after catalogue (EvFindByName "Hammer")) /\
  serve (list_products (get_with {["category" := "FOOD"]})) catalogue
  = (200, after catalogue (EvFindByCategory Category.FOOD)).
Proof.
  split.
  - apply (proj1 (category_checked_only_without_name _ catalogue) "Hammer" "BOGUS");
      [reflexivity | discriminate | reflexivity | discriminate | reflexivity].
  - apply (proj2 (category_checked_only_without_name _ catalogue) "FOOD" Category.FOOD);
      [left; reflexivity | reflexivity | discriminate | reflexivity].
Defined.

(** C1, as stated, fails: GET /products?name=Hammer&category=BOGUS carries
    a non-empty category that names no member and is answered with 200,
    not with 400. *)
Lemma unknown_category_next_to_name_is_200 :
  args (get_with (<["name" := "Hammer"]> {["category" := "BOGUS"]})) !! "category"
  = Some "BOGUS" /\
  "BOGUS" <> "" /\
  Category.getitem "BOGUS" = None /\
  (serve (list_products (get_with (<["name" := "Hammer"]> {["category" := "BOGUS"]})))
         catalogue).1 = 200 /\
  (serve (list_products (get_with (<["name" := "Hammer"]> {["category" := "BOGUS"]})))
         catalogue).1 <> 400.
Proof.
  split; [reflexivity|]. split; [discriminate|]. split; [reflexivity|].
  split; [reflexivity|]. vm_compute. discriminate.
Qed.

(** The same category without a name: the lookup raises, and what reaches
    the client is the server error. *)
Lemma unknown_category_alone_is_500 :
  list_products (get_with {["category" := "BOGUS"]}) catalogue
  = (inl (KeyError "BOGUS"), catalogue) /\
  serve (list_products (get_with {["category" := "BOGUS"]})) catalogue
  = (500, catalogue).
Proof. split; reflexivity. Qed.

(** C2, as stated, fails: GET /products?name= supplies a name, and the
    answer lists every product (here the hammer), not [find_by_name ""]
    (here nothing). *)
Lemma empty_name_is_not_find_by_name :
  args (get_with {["name" := ""]}) !! "name" = Some "" /\
  (list_products (get_with {["name" := ""]}) catalogue).1
  = inr (Response
           (JsonArray [Product.serialize (Product.set_id (Some 1) hammer)])
           HTTP_200_OK []) /\
  Store.find_by_name "" (db catalogue) = [] /\
  (list_products (get_with {["name" := ""]}) catalogue).1
  <> inr (Response
            (JsonArray (Product.serialize <$> Store.find_by_name "" (db catalogue)))
            HTTP_200_OK []).
Proof.
  split; [reflexivity|]. split; [vm_compute; reflexivity|].
  split; [vm_compute; reflexivity|].
  intros H. vm_compute in H. discriminate H.
Qed.

(** C9, as stated, fails: GET /products?available= carries the value "",
    whose lowering is not "true"; the availability filter with the boolean
    false would leave out the hammer, which is available, but the answer
    lists it: no availability filter is applied at all. *)
Lemma empty_available_is_no_filter :
  args (get_with {["available" := ""]}) !! "available" = Some "" /\
  bool_decide (lower "" = "true") = false /\
  (list_products (get_with {["available" := ""]}) catalogue).1
  = inr (Response
           (JsonArray [Product.serialize (Product.set_id (Some 1) hammer)])
           HTTP_200_OK []) /\
  Store.find_by_availability false (db catalogue) = [] /\
  (list_products (get_with {["available" := ""]}) catalogue).1
  <> inr (Response
            (JsonArray (Product.serialize <$>
               Store.find_by_availability (bool_decide (lower "" = "true"))
                 (db catalogue)))
            HTTP_200_OK []).
Proof.
  split; [reflexivity|]. split; [reflexivity|].
  split; [vm_compute; reflexivity|]. split; [vm_compute; reflexivity|].
  intros H. vm_compute in H. discriminate H.
Qed.

(** ** Further sample evaluations *)

Example lower_mixed_case : lower "TrUe" = "true".
Proof. reflexivity. Qed.

Example lower_keeps_other_bytes : lower "yes, 1 [OK]" = "yes, 1 [ok]".
Proof. reflexivity. Qed.

Example price_text : Dec.to_string (Dec.mk false 999 2) = "9.99".
Proof. reflexivity. Qed.

Example small_price_text : Dec.to_string (Dec.mk true 5 3) = "-0.005".
Proof. reflexivity. Qed.

Example price_parse : Dec.of_string "12.50" = Some (Dec.mk false 1250 2).
Proof. reflexivity. Qed.

Example price_parse_rejects : Dec.of_string "12,50" = None.
Proof. reflexivity. Qed.

Example category_names_are_exact : Category.getitem "tools" = None.
Proof. reflexivity. Qed.

(** POST /products with the hammer on the empty store: 201, the row under
    identifier 1, and the three calls in order. *)
Example post_hammer :
  serve (create_products (put_of hammer)) (World Store.empty [])
  = (201, World (db catalogue) [EvGetJson; EvDeserialize; EvCreate]).
Proof. vm_compute. reflexivity. Qed.

(** POST /products without a name: 400 and nothing stored. *)
Example post_without_name :
  serve (create_products
           (Request true (base.delete "name" (Product.serialize hammer)) ∅))
        (World Store.empty [])
  = (400, World Store.empty [EvGetJson; EvDeserialize]).
Proof. vm_compute. reflexivity. Qed.

(** POST /products with a category that names no member: 400. *)
Example post_unknown_category :
  serve (create_products
           (Request true (<["category" := JStr "BOGUS"]> (Product.serialize hammer)) ∅))
        (World Store.empty [])
  = (400, World Store.empty [EvGetJson; EvDeserialize]).
Proof. vm_compute. reflexivity. Qed.

(** DELETE /products/1 and then GET /products/1. *)
Example delete_then_get :
  (serve (get_products 1) (serve (delete_products 1) catalogue).2).1 = 404.
Proof. vm_compute. reflexivity. Qed.

(** A query by name in another case finds nothing. *)
Example find_by_name_other_case :
  Store.find_by_name "hammer" (db catalogue) = [] /\
  Store.find_by_name "Hammer" (db catalogue) = [Product.set_id (Some 1) hammer].
Proof. split; vm_compute; reflexivity. Qed.

(** ** Further properties of the handlers *)

Module HandlerFacts.

Lemma db_after w e : db (after w e) = db w.
Proof. reflexivity. Qed.

Lemma trace_after w e : trace (after w e) = (trace w ++ [e])%list.
Proof. reflexivity. Qed.

(** Simplify the world that a run of calls leaves. *)
Ltac world_simpl :=
  unfold after;
  repeat first
    [ progress cbn [db trace mret M_ret]
    | rewrite <- app_assoc; cbn [app] ].

Lemma get_json_run r w :
  is_json r = true -> get_json r w = (inr (json r), after w EvGetJson).
Proof. unfold get_json, pure_call. now intros ->. Qed.

Lemma get_json_fail_run r w :
  is_json r = false ->
  get_json r w
  = (inl (HTTPException HTTP_415_UNSUPPORTED_MEDIA_TYPE), after w EvGetJson).
Proof. unfold get_json, pure_call. now intros ->. Qed.

Lemma deserialize_run self data w :
  deserialize self data w = (Product.deserialize self data, after w EvDeserialize).
Proof. reflexivity. Qed.

Lemma create_run p w :
  create p w
  = match Store.create p (db w) with
    | inl e => (inl e, after w EvCreate)
    | inr (p', s) => (inr p', World s (trace w ++ [EvCreate]))
    end.
Proof. unfold create, command. destruct (Store.create p (db w)) as [|[]]; reflexivity. Qed.

Lemma delete_run p w :
  delete p w = (inr tt, World (Store.delete p (db w)) (trace w ++ [EvDelete])).
Proof. reflexivity. Qed.

(** A failing step of a chain of conversions is its first or a later one. *)
Lemma bind_error {A B} (m : exn + A) (k : A -> exn + B) e :
  m ≫= k = inl e -> m = inl e \/ exists x, m = inr x /\ k x = inl e.
Proof. destruct m as [e'|x]; simpl; [intros [= ->]; now left | right; eauto]. Qed.

Lemma field_error key data e :
  Product.field key data = inl e -> exists m, e = ValidationError m.
Proof.
  unfold Product.field. destruct (data !! key); [discriminate|].
  intros [= <-]. eauto.
Qed.

Lemma conversion_error e :
  (forall v, Product.as_name v = inl e -> exists m, e = ValidationError m) /\
  (forall v, Product.as_description v = inl e -> exists m, e = ValidationError m) /\
  (forall v, Product.as_price v = inl e -> exists m, e = ValidationError m) /\
  (forall v, Product.as_available v = inl e -> exists m, e = ValidationError m) /\
  (forall v, Product.as_category v = inl e -> exists m, e = ValidationError m).
Proof.
  repeat split; intros [| | |s]; simpl; try discriminate;
    try (intros [= <-]; eauto).
  - destruct (Dec.of_string s); [discriminate | intros [= <-]; eauto].
  - destruct (Category.getitem s); [discriminate | intros [= <-]; eauto].
Qed.

(** [deserialize] fails with a validation error and with nothing else. *)
Lemma deserialize_error self data e :
  Product.deserialize self data = inl e -> exists m, e = ValidationError m.
Proof.
  destruct (conversion_error e) as (Hn & Hd & Hp & Ha & Hc).
  unfold Product.deserialize. intros H.
  repeat match goal with
  | H : _ ≫= _ = inl _ |- _ =>
      apply bind_error in H as [H | (? & _ & H)]
  | H : Product.field _ _ = inl _ |- _ => exact (field_error _ _ _ H)
  end; eauto; discriminate.
Qed.

(** Whether [deserialize] fails does not depend on the receiving entity. *)
Lemma deserialize_error_receiver self self' data e :
  Product.deserialize self data = inl e -> Product.deserialize self' data = inl e.
Proof.
  unfold Product.deserialize, mbind, exn_bind, mret, exn_ret.
  repeat (match goal with |- context [match ?x with _ => _ end] => destruct x end;
          try discriminate).
  all: intros [= <-]; reflexivity.
Qed.

(** What [deserialize] returns never carries more than the receiver's
    identifier: read into [Product()], the identifier is unset. *)
Lemma deserialize_new_id data q :
  Product.deserialize Product.new data = inr q -> Product.id q = None.
Proof. intros H. now apply ProductFacts.deserialize_id in H. Qed.

(** POST /products with a payload that deserializes, on a store whose next
    identifier is free. *)
Lemma post_run r w q :
  is_json r = true ->
  Product.deserialize Product.new (json r) = inr q ->
  Store.rows (db w) !! Store.next_id (db w) = None ->
  create_products r w
  = (inr (Response
            (JsonObject (Product.serialize
                           (Product.set_id (Some (Store.next_id (db w))) q)))
            HTTP_201_CREATED
            [("Location", "/products/" ++ str_Z (Store.next_id (db w)))]),
     World (Store.mk (<[Store.next_id (db w) := Store.to_row q]> (Store.rows (db w)))
                     (Store.next_id (db w) + 1))
           (trace w ++ [EvGetJson; EvDeserialize; EvCreate])).
Proof.
  intros Hj Hq Hfree. unfold create_products.
  rewrite RouteFacts.bind_run, Hj. cbn [negb mret M_ret].
  rewrite RouteFacts.bind_run, (get_json_run _ _ Hj).
  rewrite RouteFacts.bind_run, deserialize_run, Hq.
  rewrite RouteFacts.bind_run, create_run. unfold Store.create.
  world_simpl. rewrite Hfree. world_simpl.
  cbn [Product.id Product.set_id str_id]. world_simpl. reflexivity.
Qed.

(** POST /products with a payload that does not deserialize. *)
Lemma post_invalid_run r w e :
  is_json r = true ->
  Product.deserialize Product.new (json r) = inl e ->
  create_products r w
  = (inl e, World (db w) (trace w ++ [EvGetJson; EvDeserialize])).
Proof.
  intros Hj Hq. unfold create_products.
  rewrite RouteFacts.bind_run, Hj. cbn [negb mret M_ret].
  rewrite RouteFacts.bind_run, (get_json_run _ _ Hj).
  rewrite RouteFacts.bind_run, deserialize_run, Hq.
  world_simpl. reflexivity.
Qed.

(** GET /products/{id} of a stored product. *)
Lemma get_run i w p :
  Store.find i (db w) = Some p ->
  get_products i w
  = (inr (Response (JsonObject (Product.serialize p)) HTTP_200_OK []),
     after w (EvFind i)).
Proof.
  intros H. unfold get_products.
  now rewrite RouteFacts.bind_run, RouteFacts.find_run, H.
Qed.

(** GET /products/{id} of an identifier that no row has. *)
Lemma get_missing_run i w :
  Store.find i (db w) = None ->
  get_products i w = (inl (HTTPException HTTP_404_NOT_FOUND), after w (EvFind i)).
Proof.
  intros H. unfold get_products.
  now rewrite RouteFacts.bind_run, RouteFacts.find_run, H.
Qed.

(** DELETE /products/{id} of a stored product. *)
Lemma delete_products_run i w p :
  Store.find i (db w) = Some p ->
  delete_products i w
  = (inr (Response (Text "") HTTP_204_NO_CONTENT []),
     World (Store.mk (base.delete i (Store.rows (db w))) (Store.next_id (db w)))
           (trace w ++ [EvFind i; EvDelete])).
Proof.
  intros H. unfold delete_products.
  rewrite RouteFacts.bind_run, RouteFacts.find_run, H.
  rewrite RouteFacts.bind_run, delete_run. unfold Store.delete.
  rewrite (StoreFacts.find_id _ _ _ H). world_simpl. reflexivity.
Qed.

Lemma delete_missing_run i w :
  Store.find i (db w) = None ->
  delete_products i w = (inl (HTTPException HTTP_404_NOT_FOUND), after w (EvFind i)).
Proof.
  intros H. unfold delete_products.
  now rewrite RouteFacts.bind_run, RouteFacts.find_run, H.
Qed.

(** PUT /products/{id} of a stored product with a payload that
    deserializes. *)
Lemma put_run i w r p0 q :
  Store.find i (db w) = Some p0 ->
  is_json r = true ->
  Product.deserialize Product.new (json r) = inr q ->
  update_products i r w
  = (inr (Response (JsonObject (Product.serialize (Product.set_id (Some i) q)))
                   HTTP_200_OK []),
     World (Store.mk (<[i := Store.to_row q]> (Store.rows (db w)))
                     (Store.next_id (db w)))
           (trace w ++ [EvFind i; EvGetJson; EvDeserialize; EvUpdate])).
Proof.
  intros Hfind Hj Hq.
  pose proof (StoreFacts.find_id _ _ _ Hfind) as Hid.
  pose proof (ProductFacts.deserialize_receiver _ p0 _ _ Hq) as Hd.
  rewrite Hid in Hd. unfold update_products.
  rewrite RouteFacts.bind_run, RouteFacts.find_run, Hfind.
  rewrite RouteFacts.bind_run, (get_json_run _ _ Hj).
  rewrite RouteFacts.bind_run, deserialize_run, Hd.
  rewrite RouteFacts.bind_run, UpdateFacts.update_run. world_simpl.
  rewrite (UpdateFacts.store_update_found i p0 (Product.set_id (Some i) q)
             (db w) Hfind eq_refl).
  world_simpl. rewrite StoreFacts.to_row_set_id. reflexivity.
Qed.

(** PUT /products/{id} of a stored product with a payload that does not
    deserialize. *)
Lemma put_invalid_run i w r p0 e :
  Store.find i (db w) = Some p0 ->
  is_json r = true ->
  Product.deserialize Product.new (json r) = inl e ->
  update_products i r w
  = (inl e, World (db w) (trace w ++ [EvFind i; EvGetJson; EvDeserialize])).
Proof.
  intros Hfind Hj Hq.
  pose proof (deserialize_error_receiver _ p0 _ _ Hq) as Hd.
  unfold update_products.
  rewrite RouteFacts.bind_run, RouteFacts.find_run, Hfind.
  rewrite RouteFacts.bind_run, (get_json_run _ _ Hj).
  rewrite RouteFacts.bind_run, deserialize_run, Hd.
  world_simpl. reflexivity.
Qed.

Lemma list_products_db r w : db (list_products r w).2 = db w.
Proof.
  unfold list_products, Category_getitem.
  destruct (truthy (args r !! "name")); [reflexivity|].
  destruct (truthy (args r !! "category")) as [k|].
  - cbn [mbind M_bind]. destruct (Category.getitem k); reflexivity.
  - destruct (truthy (args r !! "available")); reflexivity.
Qed.

Lemma get_products_db i w : db (get_products i w).2 = db w.
Proof.
  unfold get_products. rewrite RouteFacts.bind_run, RouteFacts.find_run.
  destruct (Store.find i (db w)); reflexivity.
Qed.

(** PUT /products/{id} of a stored product with a body that is not JSON
    content-typed: [get_json] raises, and neither [deserialize] nor
    [update] is reached. *)
Lemma put_not_json_run i w r p0 :
  Store.find i (db w) = Some p0 ->
  is_json r = false ->
  update_products i r w
  = (inl (HTTPException HTTP_415_UNSUPPORTED_MEDIA_TYPE),
     World (db w) (trace w ++ [EvFind i; EvGetJson])).
Proof.
  intros Hfind Hj. unfold update_products.
  rewrite RouteFacts.bind_run, RouteFacts.find_run, Hfind.
  rewrite RouteFacts.bind_run, (get_json_fail_run _ _ Hj).
  world_simpl. reflexivity.
Qed.

Lemma put_missing_run i w r :
  Store.find i (db w) = None ->
  update_products i r w = (inl (HTTPException HTTP_404_NOT_FOUND), after w (EvFind i)).
Proof.
  intros H. unfold update_products.
  now rewrite RouteFacts.bind_run, RouteFacts.find_run, H.
Qed.

End HandlerFacts.

(** X1.  POST /products with a JSON payload that deserializes, on a store
    whose next identifier is free, answers 201 with the serialized product
    under the new identifier and a Location header that names it; the
    store gains that row and no other row changes. *)
Theorem post_creates_one_row (r : request) (w : world) (q : Product.t) :
  is_json r = true ->
  Product.deserialize Product.new (json r) = inr q ->
  Store.find (Store.next_id (db w)) (db w) = None ->
  exists w',
    create_products r w
    = (inr (Response
              (JsonObject (Product.serialize
                             (Product.set_id (Some (Store.next_id (db w))) q)))
              HTTP_201_CREATED
              [("Location", "/products/" ++ str_Z (Store.next_id (db w)))]),
       w') /\
    Store.find (Store.next_id (db w)) (db w')
    = Some (Product.set_id (Some (Store.next_id (db w))) q) /\
    (forall j, j <> Store.next_id (db w) ->
               Store.find j (db w') = Store.find j (db w)) /\
    length (Store.all (db w')) = S (length (Store.all (db w))) /\
    trace w' = (trace w ++ [EvGetJson; EvDeserialize; EvCreate])%list.
Proof.
  intros Hj Hq Hfree%StoreFacts.find_None.
  eexists. split; [apply (HandlerFacts.post_run r w q Hj Hq Hfree)|].
  cbn [db trace]. split; [|split; [|split]].
  - unfold Store.find. cbn [Store.rows]. now rewrite lookup_insert_eq.
  - intros j Hne. unfold Store.find. cbn [Store.rows].
    now rewrite lookup_insert_ne by congruence.
  - rewrite !StoreFacts.length_all. cbn [Store.rows].
    now apply map_size_insert_None.
  - reflexivity.
Qed.

(** X2.  POST /products with a JSON payload that does not deserialize is
    answered with 400; [create] is never called and the store is as
    before. *)
Theorem post_invalid_is_400 (r : request) (w : world) (e : exn) :
  is_json r = true ->
  Product.deserialize Product.new (json r) = inl e ->
  serve (create_products r) w
  = (400, World (db w) (trace w ++ [EvGetJson; EvDeserialize])).
Proof.
  intros Hj He. unfold serve.
  rewrite (HandlerFacts.post_invalid_run r w e Hj He).
  apply HandlerFacts.deserialize_error in He as [m ->]. reflexivity.
Qed.

(** X3.  After a POST that created a product, GET /products/{id} of the
    identifier it was given answers 200 with the very body that the POST
    returned. *)
Theorem get_after_post (r : request) (w : world) (q : Product.t) :
  is_json r = true ->
  Product.deserialize Product.new (json r) = inr q ->
  Store.find (Store.next_id (db w)) (db w) = None ->
  exists b hs w',
    create_products r w = (inr (Response b HTTP_201_CREATED hs), w') /\
    response_id (inr (Response b HTTP_201_CREATED hs)) = Some (Store.next_id (db w)) /\
    get_products (Store.next_id (db w)) w'
    = (inr (Response b HTTP_200_OK []), after w' (EvFind (Store.next_id (db w)))).
Proof.
  intros Hj Hq Hfree%StoreFacts.find_None.
  eexists _, _, _. split; [apply (HandlerFacts.post_run r w q Hj Hq Hfree)|].
  split; [reflexivity|].
  apply HandlerFacts.get_run. unfold Store.find. cbn [db Store.rows].
  now rewrite lookup_insert_eq.
Qed.

(** X4.  DELETE /products/{id} of a stored product answers 204 with an
    empty body and removes that row and no other; afterwards GET and
    DELETE of the same identifier both answer 404. *)
Theorem delete_then_not_found (i : Z) (w : world) (p : Product.t) :
  Store.find i (db w) = Some p ->
  exists w',
    delete_products i w = (inr (Response (Text "") HTTP_204_NO_CONTENT []), w') /\
    Store.find i (db w') = None /\
    (forall j, j <> i -> Store.find j (db w') = Store.find j (db w)) /\
    S (length (Store.all (db w'))) = length (Store.all (db w)) /\
    (serve (get_products i) w').1 = 404 /\
    (serve (delete_products i) w').1 = 404.
Proof.
  intros Hfind. eexists. split; [apply (HandlerFacts.delete_products_run i w p Hfind)|].
  assert (Hgone : forall t,
    Store.find i (db (World (Store.mk (base.delete i (Store.rows (db w)))
                                      (Store.next_id (db w))) t)) = None).
  { intros t. unfold Store.find. cbn [db Store.rows]. now rewrite lookup_delete_eq. }
  split; [apply Hgone|]. split; [|split; [|split]].
  - intros j Hne. unfold Store.find. cbn [db Store.rows].
    now rewrite lookup_delete_ne by congruence.
  - rewrite !StoreFacts.length_all. cbn [db Store.rows].
    unfold Store.find in Hfind. destruct (Store.rows (db w) !! i) as [row|] eqn:E;
      [|discriminate].
    rewrite map_size_delete, E.
    pose proof (map_size_ne_0_lookup_2 (Store.rows (db w)) i (mk_is_Some _ _ E)).
    lia.
  - unfold serve. now rewrite (HandlerFacts.get_missing_run _ _ (Hgone _)).
  - unfold serve. now rewrite (HandlerFacts.delete_missing_run _ _ (Hgone _)).
Qed.

(** X5.  No GET handler changes the store, whatever the request and
    whatever the store: the index page, the health check, the listing
    with any query arguments (also when it raises), and the read of one
    product (also when it answers 404). *)
Theorem get_handlers_read_only (r : request) (i : Z) (w : world) :
  db (index w).2 = db w /\
  db (health w).2 = db w /\
  db (list_products r w).2 = db w /\
  db (get_products i w).2 = db w.
Proof.
  split; [reflexivity|]. split; [reflexivity|]. split.
  - apply HandlerFacts.list_products_db.
  - apply HandlerFacts.get_products_db.
Qed.

(** X6.  PUT /products/{id} of a stored product with a JSON content-typed
    payload that does not deserialize is answered with 400; [update] is
    never called, and the row and the rest of the store are as before. *)
Theorem put_invalid_leaves_row (i : Z) (r : request) (w : world)
    (p0 : Product.t) (e : exn) :
  Store.find i (db w) = Some p0 ->
  is_json r = true ->
  Product.deserialize Product.new (json r) = inl e ->
  serve (update_products i r) w
  = (400, World (db w) (trace w ++ [EvFind i; EvGetJson; EvDeserialize])).
Proof.
  intros Hfind Hj He. unfold serve.
  rewrite (HandlerFacts.put_invalid_run i w r p0 e Hfind Hj He).
  apply HandlerFacts.deserialize_error in He as [m ->]. reflexivity.
Qed.

(** X7.  PUT is idempotent: sending the same valid PUT to a stored product
    a second time gives the same response and leaves the store as the
    first left it. *)
Theorem put_twice_is_put_once (i : Z) (r : request) (w : world)
    (p0 q : Product.t) :
  Store.find i (db w) = Some p0 ->
  Product.deserialize Product.new (json r) = inr q ->
  (update_products i r (update_products i r w).2).1 = (update_products i r w).1 /\
  db (update_products i r (update_products i r w).2).2 = db (update_products i r w).2.
Proof.
  intros Hfind Hq. destruct (is_json r) eqn:Hj.
  - rewrite (HandlerFacts.put_run i w r p0 q Hfind Hj Hq). cbn [fst snd].
    erewrite HandlerFacts.put_run; [| |exact Hj|exact Hq].
    + cbn [fst snd db Store.rows Store.next_id]. split; [reflexivity|].
      now rewrite insert_insert_eq.
    + unfold Store.find. cbn [db Store.rows]. rewrite lookup_insert_eq.
      reflexivity.
  - rewrite (HandlerFacts.put_not_json_run i w r p0 Hfind Hj). cbn [fst snd].
    rewrite (HandlerFacts.put_not_json_run i
               (World (db w) (trace w ++ [EvFind i; EvGetJson])) r p0 Hfind Hj).
    split; reflexivity.
Qed.

(** X8.  After a valid PUT to a stored product (JSON content-typed, with
    a payload that deserializes), GET /products/{id} answers 200 with the
    very body that the PUT returned. *)
Theorem get_after_put (i : Z) (r : request) (w : world) (p0 q : Product.t) :
  Store.find i (db w) = Some p0 ->
  is_json r = true ->
  Product.deserialize Product.new (json r) = inr q ->
  exists b w',
    update_products i r w = (inr (Response b HTTP_200_OK []), w') /\
    get_products i w' = (inr (Response b HTTP_200_OK []), after w' (EvFind i)).
Proof.
  intros Hfind Hj Hq. eexists _, _.
  split; [apply (HandlerFacts.put_run i w r p0 q Hfind Hj Hq)|].
  apply HandlerFacts.get_run. unfold Store.find. cbn [db Store.rows].
  now rewrite lookup_insert_eq.
Qed.

(** X9.  GET /products raises in exactly one situation: the name is absent
    or empty and the category is given non-empty with a value that names
    no member.  What it raises then is the [KeyError] of that value, and
    no call has been made. *)
Theorem list_products_raises_iff (r : request) (w w' : world) (e : exn) :
  list_products r w = (inl e, w') <->
  falsy (args r !! "name") /\
  exists k, args r !! "category" = Some k /\ k <> "" /\
            Category.getitem k = None /\ e = KeyError k /\ w' = w.
Proof.
  split.
  - destruct (truthy (args r !! "name")) as [n|] eqn:En.
    { rewrite (RouteFacts.list_by_name r w n En). discriminate. }
    destruct (truthy (args r !! "category")) as [k|] eqn:Ek.
    + destruct (Category.getitem k) as [c|] eqn:Ec.
      * rewrite (RouteFacts.list_by_category r w k c En Ek Ec). discriminate.
      * rewrite (RouteFacts.list_by_unknown_category r w k En Ek Ec).
        intros [= <- <-]. apply RouteFacts.truthy_None in En.
        apply RouteFacts.truthy_Some in Ek as [Hk Hne].
        split; [exact En|]. exists k. auto.
    + destruct (truthy (args r !! "available")) as [a|] eqn:Ea.
      * rewrite (RouteFacts.list_by_availability r w a En Ek Ea). discriminate.
      * rewrite (RouteFacts.list_all r w En Ek Ea). discriminate.
  - intros (Hn & k & Hk & Hne & Hc & -> & ->).
    apply RouteFacts.list_by_unknown_category;
      auto using ArgFacts.falsy_truthy, ArgFacts.given_truthy.
Qed.

(** ** Runs of requests *)

Module RunFacts.
Import HandlerFacts.

Lemma find_Some_row i s p : Store.find i s = Some p -> is_Some (Store.rows s !! i).
Proof. unfold Store.find. destruct (Store.rows s !! i); [eauto | discriminate]. Qed.

(** Every request leaves the table by one of the four steps. *)
Lemma dispatch_step c w : store_step (db w) (db (dispatch c w).2).
Proof.
  destruct c as [| |r|r|i|i r|i]; cbn [dispatch].
  - now apply step_same.
  - now apply step_same.
  - destruct (is_json r) eqn:Hj.
    + destruct (Product.deserialize Product.new (json r)) as [e|q] eqn:Hq.
      * rewrite (post_invalid_run r w e Hj Hq). now apply step_same.
      * destruct (Store.rows (db w) !! Store.next_id (db w)) as [row|] eqn:Hfree.
        -- apply step_same. unfold create_products.
           rewrite RouteFacts.bind_run, Hj. cbn [negb mret M_ret].
           rewrite RouteFacts.bind_run, (get_json_run _ _ Hj).
           rewrite RouteFacts.bind_run, deserialize_run, Hq.
           rewrite RouteFacts.bind_run, create_run. unfold Store.create.
           world_simpl. rewrite Hfree. reflexivity.
        -- rewrite (post_run r w q Hj Hq Hfree).
           now apply (step_insert _ _ (Store.to_row q)).
    + apply step_same. unfold create_products.
      now rewrite RouteFacts.bind_run, Hj.
  - apply step_same, list_products_db.
  - apply step_same, get_products_db.
  - destruct (Store.find i (db w)) as [p0|] eqn:Hfind.
    + destruct (is_json r) eqn:Hj.
      * destruct (Product.deserialize Product.new (json r)) as [e|q] eqn:Hq.
        -- rewrite (put_invalid_run i w r p0 e Hfind Hj Hq). now apply step_same.
        -- rewrite (put_run i w r p0 q Hfind Hj Hq).
           apply (step_replace _ _ i (Store.to_row q)); [|reflexivity].
           now apply find_Some_row in Hfind.
      * rewrite (put_not_json_run i w r p0 Hfind Hj). now apply step_same.
    + rewrite (put_missing_run i w r Hfind). now apply step_same.
  - destruct (Store.find i (db w)) as [p0|] eqn:Hfind.
    + rewrite (delete_products_run i w p0 Hfind).
      apply (step_delete _ _ i); [|reflexivity].
      now apply find_Some_row in Hfind.
    + rewrite (delete_missing_run i w Hfind). now apply step_same.
Qed.

(** A step keeps every identifier in use below the sequence, and the
    sequence does not go back. *)
Lemma step_keys_below s s' :
  store_step s s' -> Store.keys_below_next s ->
  Store.keys_below_next s' /\ (Store.next_id s <= Store.next_id s')%Z.
Proof.
  intros [->|row Hfree ->|i row [r0 Hi] ->|i _ ->] Hs; cbn [Store.next_id].
  - split; [exact Hs | lia].
  - split; [|lia]. intros j r. cbn [Store.rows Store.next_id].
    rewrite lookup_insert. case_decide as E; [intros _; lia|].
    intros Hj%Hs. lia.
  - split; [|lia]. intros j r. cbn [Store.rows Store.next_id].
    rewrite lookup_insert. case_decide as E; [subst; intros _; now apply Hs in Hi|].
    apply Hs.
  - split; [|lia]. intros j r. cbn [Store.rows Store.next_id].
    rewrite lookup_delete. case_decide as E; [discriminate|]. apply Hs.
Qed.


(** A step leaves all rows but at most one as they were. *)
Lemma step_one_row s s' :
  store_step s s' ->
  exists i, forall j, j <> i -> Store.rows s' !! j = Store.rows s !! j.
Proof.
  intros [->|row Hfree ->|i row _ ->|i _ ->]; cbn [Store.rows].
  - exists 0%Z. reflexivity.
  - exists (Store.next_id s). intros j Hj. now rewrite lookup_insert_ne.
  - exists i. intros j Hj. now rewrite lookup_insert_ne.
  - exists i. intros j Hj. now rewrite lookup_delete_ne.
Qed.

Lemma run_cons c cs w :
  run (c :: cs) w
  = ((serve (dispatch c) w).1 :: (run cs (dispatch c w).2).1,
     (run cs (dispatch c w).2).2).
Proof.
  cbn [run]. unfold serve. destruct (dispatch c w) as [res w1].
  cbn [fst snd]. now destruct (run cs w1).
Qed.

Lemma run_keys_below cs w :
  Store.keys_below_next (db w) ->
  Store.keys_below_next (db (run cs w).2) /\
  (Store.next_id (db w) <= Store.next_id (db (run cs w).2))%Z.
Proof.
  revert w. induction cs as [|c cs IH]; intros w Hw.
  - cbn. split; [exact Hw | lia].
  - rewrite run_cons. cbn [snd].
    destruct (step_keys_below _ _ (dispatch_step c w) Hw) as [H1 H2].
    destruct (IH _ H1) as [H3 H4]. split; [exact H3 | lia].
Qed.

End RunFacts.

(** The world in which the service starts. *)
Lemma keys_below_initial : Store.keys_below_next (db (World Store.empty [])).
Proof. apply StoreFacts.keys_below_next_empty. Qed.

(** X10.  Whatever requests came before, starting from the empty store, a
    POST /products with a JSON payload that deserializes is answered with
    201: the identifier that the sequence hands out is never taken, since
    every identifier in use lies below the sequence. *)
Theorem post_valid_always_created (cs : list call) (r : request) (q : Product.t) :
  is_json r = true ->
  Product.deserialize Product.new (json r) = inr q ->
  (forall i p, Store.find i (db (run cs (World Store.empty [])).2) = Some p ->
               (i < Store.next_id (db (run cs (World Store.empty [])).2))%Z) /\
  (serve (create_products r) (run cs (World Store.empty [])).2).1 = 201.
Proof.
  intros Hj Hq.
  destruct (RunFacts.run_keys_below cs _ keys_below_initial) as [Hinv _].
  set (w := (run cs (World Store.empty [])).2) in *.
  split.
  - intros i p [row Hrow]%RunFacts.find_Some_row. now apply Hinv in Hrow.
  - assert (Hfree : Store.rows (db w) !! Store.next_id (db w) = None).
    { destruct (Store.rows (db w) !! Store.next_id (db w)) eqn:E; [|reflexivity].
      apply Hinv in E. lia. }
    unfold serve. now rewrite (HandlerFacts.post_run r w q Hj Hq Hfree).
Qed.


(** The answers of GET /products: the server error in the one situation
    in which the lookup of the category raises, 200 in every other. *)
Lemma list_products_status (r : request) (w : world) :
  ((serve (list_products r) w).1 = 500 /\
   falsy (args r !! "name") /\
   exists k, args r !! "category" = Some k /\ k <> "" /\ Category.getitem k = None)
  \/
  ((serve (list_products r) w).1 = 200 /\
   ~ (falsy (args r !! "name") /\
      exists k, args r !! "category" = Some k /\ k <> "" /\
                Category.getitem k = None)).
Proof.
  unfold serve.
  destruct (truthy (args r !! "name")) as [n|] eqn:En.
  { right. rewrite (RouteFacts.list_by_name r w n En). split; [reflexivity|].
    intros [Hn _]. apply ArgFacts.falsy_truthy in Hn. congruence. }
  destruct (truthy (args r !! "category")) as [k|] eqn:Ek.
  - destruct (Category.getitem k) as [m|] eqn:Ec.
    + right. rewrite (RouteFacts.list_by_category r w k m En Ek Ec).
      split; [reflexivity|]. intros [_ (k' & Hk' & Hne & Hc)].
      rewrite (ArgFacts.given_truthy _ _ Hk' Hne) in Ek. congruence.
    + left. rewrite (RouteFacts.list_by_unknown_category r w k En Ek Ec).
      split; [reflexivity|]. apply RouteFacts.truthy_None in En.
      apply RouteFacts.truthy_Some in Ek as [Hk Hne]. split; [exact En|]. eauto.
  - assert (Hno : ~ (falsy (args r !! "name") /\
                     exists k, args r !! "category" = Some k /\ k <> "" /\
                               Category.getitem k = None)).
    { intros [_ (k' & Hk' & Hne & Hc)].
      rewrite (ArgFacts.given_truthy _ _ Hk' Hne) in Ek. discriminate. }
    right. split; [|exact Hno].
    destruct (truthy (args r !! "available")) as [a|] eqn:Ea.
    + now rewrite (RouteFacts.list_by_availability r w a En Ek Ea).
    + now rewrite (RouteFacts.list_all r w En Ek Ea).
Qed.

(** X12.  On a store whose identifiers in use lie below the sequence, a
    request is answered with a server error exactly when it is a GET
    /products whose name is absent or empty and whose category is given
    non-empty with a value that names no member; every other request of
    the routing table is answered with 200, 201, 204, 400, 404 or 415. *)
Theorem server_error_only_for_unknown_category (c : call) (w : world) :
  Store.keys_below_next (db w) ->
  ((serve (dispatch c) w).1 = 500 <->
   exists r k,
     c = GET_products r /\ falsy (args r !! "name") /\
     args r !! "category" = Some k /\ k <> "" /\ Category.getitem k = None) /\
  ((serve (dispatch c) w).1 <> 500 ->
   (serve (dispatch c) w).1 = 200 \/ (serve (dispatch c) w).1 = 201 \/
   (serve (dispatch c) w).1 = 204 \/ (serve (dispatch c) w).1 = 400 \/
   (serve (dispatch c) w).1 = 404 \/ (serve (dispatch c) w).1 = 415).
Proof.
  intros Hinv.
  assert (Hother : forall st : Z,
    (serve (dispatch c) w).1 = st ->
    (forall r, c <> GET_products r) ->
    st = 200 \/ st = 201 \/ st = 204 \/ st = 400 \/ st = 404 \/ st = 415 ->
    ((serve (dispatch c) w).1 = 500 <->
     exists r k,
       c = GET_products r /\ falsy (args r !! "name") /\
       args r !! "category" = Some k /\ k <> "" /\ Category.getitem k = None) /\
    ((serve (dispatch c) w).1 <> 500 ->
     (serve (dispatch c) w).1 = 200 \/ (serve (dispatch c) w).1 = 201 \/
     (serve (dispatch c) w).1 = 204 \/ (serve (dispatch c) w).1 = 400 \/
     (serve (dispatch c) w).1 = 404 \/ (serve (dispatch c) w).1 = 415)).
  { intros st -> Hc Hst. split; [split|].
    - intros E. rewrite E in Hst. lia.
    - intros (r & k & -> & _). now destruct (Hc r).
    - intros _. exact Hst. }
  destruct c as [| |r|r|i|i r|i].
  - apply (Hother 200); [reflexivity | discriminate | tauto].
  - apply (Hother 200); [reflexivity | discriminate | tauto].
  - destruct (is_json r) eqn:Hj.
    + destruct (Product.deserialize Product.new (json r)) as [e|q] eqn:Hq.
      * apply (Hother 400); [|discriminate|tauto]. cbn [dispatch]. unfold serve.
        rewrite (HandlerFacts.post_invalid_run r w e Hj Hq).
        now apply HandlerFacts.deserialize_error in Hq as [m ->].
      * assert (Hfree : Store.rows (db w) !! Store.next_id (db w) = None).
        { destruct (Store.rows (db w) !! Store.next_id (db w)) eqn:E; [|reflexivity].
          apply Hinv in E. lia. }
        apply (Hother 201); [|discriminate|tauto]. cbn [dispatch]. unfold serve.
        now rewrite (HandlerFacts.post_run r w q Hj Hq Hfree).
    + apply (Hother 415); [|discriminate|tauto]. cbn [dispatch].
      unfold serve, create_products. now rewrite RouteFacts.bind_run, Hj.
  - cbn [dispatch].
    destruct (list_products_status r w) as [(Hst & Hn & k & Hk & Hne & Hc)|[Hst Hno]].
    + split; [split|].
      * intros _. exists r, k. auto.
      * intros _. exact Hst.
      * intros H. now rewrite Hst in H.
    + split; [split|].
      * intros E. rewrite E in Hst. discriminate.
      * intros (r' & k & [= <-] & Hn & Hk). destruct Hno. eauto.
      * intros _. now left.
  - destruct (Store.find i (db w)) as [p|] eqn:Hf.
    + apply (Hother 200); [|discriminate|tauto]. cbn [dispatch]. unfold serve.
      now rewrite (HandlerFacts.get_run i w p Hf).
    + apply (Hother 404); [|discriminate|tauto]. cbn [dispatch]. unfold serve.
      now rewrite (HandlerFacts.get_missing_run i w Hf).
  - destruct (Store.find i (db w)) as [p|] eqn:Hf.
    + destruct (is_json r) eqn:Hj.
      * destruct (Product.deserialize Product.new (json r)) as [e|q] eqn:Hq.
        -- apply (Hother 400); [|discriminate|tauto]. cbn [dispatch]. unfold serve.
           rewrite (HandlerFacts.put_invalid_run i w r p e Hf Hj Hq).
           now apply HandlerFacts.deserialize_error in Hq as [m ->].
        -- apply (Hother 200); [|discriminate|tauto]. cbn [dispatch]. unfold serve.
           now rewrite (HandlerFacts.put_run i w r p q Hf Hj Hq).
      * apply (Hother 415); [|discriminate|tauto]. cbn [dispatch]. unfold serve.
        now rewrite (HandlerFacts.put_not_json_run i w r p Hf Hj).
    + apply (Hother 404); [|discriminate|tauto]. cbn [dispatch]. unfold serve.
      now rewrite (HandlerFacts.put_missing_run i w r Hf).
  - destruct (Store.find i (db w)) as [p|] eqn:Hf.
    + apply (Hother 204); [|discriminate|tauto]. cbn [dispatch]. unfold serve.
      now rewrite (HandlerFacts.delete_products_run i w p Hf).
    + apply (Hother 404); [|discriminate|tauto]. cbn [dispatch]. unfold serve.
      now rewrite (HandlerFacts.delete_missing_run i w Hf).
Qed.

(** X13.  One request touches at most one product: there is an identifier
    such that every other identifier reads after the request as it read
    before it. *)
Theorem request_touches_one_row (c : call) (w : world) :
  exists i, forall j, j <> i ->
    Store.find j (db (dispatch c w).2) = Store.find j (db w).
Proof.
  destruct (RunFacts.step_one_row _ _ (RunFacts.dispatch_step c w)) as [i Hi].
  exists i. intros j Hj. unfold Store.find. now rewrite (Hi j Hj).
Qed.

(** ** The test client of [tests/test_routes.py] *)

Module TestFacts.
Import HandlerFacts.

Lemma Z_next_shift (i : Z) (k : nat) : (i + 1 + Z.of_nat k = i + Z.of_nat (S k))%Z.
Proof. lia. Qed.

(** One turn of the loop of [_create_products] on a store whose next
    identifier is free. *)
Lemma post_serialized_run f w :
  Store.rows (db w) !! Store.next_id (db w) = None ->
  client_post_json (Product.serialize f) w
  = (inr (Response
            (JsonObject (Product.serialize
                           (Product.set_id (Some (Store.next_id (db w))) f)))
            HTTP_201_CREATED
            [("Location", "/products/" ++ str_Z (Store.next_id (db w)))]),
     World (Store.mk (<[Store.next_id (db w) := Store.to_row f]> (Store.rows (db w)))
                     (Store.next_id (db w) + 1))
           (trace w ++ [EvGetJson; EvDeserialize; EvCreate])).
Proof.
  intros Hfree. unfold client_post_json.
  rewrite (post_run (Request true (Product.serialize f) ∅) w
             (Product.set_id None f) eq_refl); [reflexivity| |exact Hfree].
  cbn [json]. now rewrite ProductFacts.deserialize_serialize_into.
Qed.

Lemma keys_below_free s :
  Store.keys_below_next s -> Store.rows s !! Store.next_id s = None.
Proof.
  intros Hs. destruct (Store.rows s !! Store.next_id s) eqn:E; [|reflexivity].
  apply Hs in E. lia.
Qed.

(** The loop of [_create_products]: every POST is answered 201, the
    products come back under consecutive identifiers, their rows are in
    the table, and the rows that were there are untouched. *)
Lemma create_products_loop factory :
  forall w, Store.keys_below_next (db w) ->
  exists w',
    _create_products factory w
    = (Some (imap (fun k f =>
                     Product.set_id (Some (Store.next_id (db w) + Z.of_nat k)%Z) f)
                  factory), w') /\
    Store.keys_below_next (db w') /\
    Store.next_id (db w') = (Store.next_id (db w) + Z.of_nat (length factory))%Z /\
    (forall j, (j < Store.next_id (db w))%Z ->
               Store.rows (db w') !! j = Store.rows (db w) !! j) /\
    size (Store.rows (db w')) = (size (Store.rows (db w)) + length factory)%nat /\
    (forall k f, factory !! k = Some f ->
       Store.rows (db w') !! (Store.next_id (db w) + Z.of_nat k)%Z
       = Some (Store.to_row f)).
Proof.
  induction factory as [|f factory IH]; intros w Hinv.
  - exists w. cbn [_create_products imap length]. repeat split; auto.
    + lia.
    + intros k f Hk. rewrite lookup_nil in Hk. discriminate.
  - pose proof (keys_below_free _ Hinv) as Hfree.
    cbn [_create_products]. rewrite (post_serialized_run f w Hfree).
    set (i := Store.next_id (db w)).
    set (w1 := World (Store.mk (<[i := Store.to_row f]> (Store.rows (db w))) (i + 1))
                     (trace w ++ [EvGetJson; EvDeserialize; EvCreate])).
    assert (Hinv1 : Store.keys_below_next (db w1)).
    { intros j r. cbn [w1 db Store.rows Store.next_id].
      rewrite lookup_insert. case_decide as E; [intros _; lia|].
      intros Hj%Hinv. fold i in Hj. lia. }
    destruct (IH w1 Hinv1) as (w' & Hrun & Hinv' & Hnext & Hold & Hsize & Hnew).
    exists w'. cbn [http_status r_status]. 
    change (negb (HTTP_201_CREATED =? HTTP_201_CREATED)%Z) with false. cbv iota.
    rewrite Hrun. cbn [w1 db Store.rows Store.next_id] in *.
    split; [|split; [exact Hinv'|split; [|split; [|split]]]].
    + f_equal. f_equal. cbn [imap]. f_equal.
      * unfold response_id. rewrite ProductFacts.serialize_id.
        cbn [Product.id Product.set_id Product.jopt]. now rewrite Z.add_0_r.
      * apply imap_ext. intros k x _. unfold compose. now rewrite Z_next_shift.
    + rewrite Hnext. cbn [length]. lia.
    + intros j Hj. rewrite Hold by lia. now rewrite lookup_insert_ne by lia.
    + rewrite Hsize, map_size_insert_None by exact Hfree. cbn [length]. lia.
    + intros [|k] x Hk; cbn in Hk.
      * injection Hk as ->. rewrite Z.add_0_r, Hold by lia.
        now rewrite lookup_insert_eq.
      * rewrite <- Z_next_shift. now apply Hnew.
Qed.

End TestFacts.

(** X14.  [_create_products] on a store whose identifiers in use lie below
    the sequence never fails its assertion: every POST is answered 201,
    the products come back in order under consecutive identifiers, each
    can be read back under its identifier, the products that were stored
    before are untouched, and GET /products then lists as many products
    as before plus the number created. *)
Theorem created_products_are_listed (factory : list Product.t) (w : world) :
  Store.keys_below_next (db w) ->
  exists products w',
    _create_products factory w = (Some products, w') /\
    length products = length factory /\
    (forall k f, factory !! k = Some f ->
       products !! k
       = Some (Product.set_id (Some (Store.next_id (db w) + Z.of_nat k)%Z) f) /\
       Store.find (Store.next_id (db w) + Z.of_nat k)%Z (db w')
       = Some (Product.set_id (Some (Store.next_id (db w) + Z.of_nat k)%Z) f)) /\
    (forall j p, Store.find j (db w) = Some p -> Store.find j (db w') = Some p) /\
    (serve (list_products (get_with ∅)) w').1 = 200 /\
    response_len (list_products (get_with ∅) w').1
    = Some (length (Store.all (db w)) + length factory)%nat.
Proof.
  intros Hinv.
  destruct (TestFacts.create_products_loop factory w Hinv)
    as (w' & Hrun & _ & _ & Hold & Hsize & Hnew).
  eexists _, w'. split; [exact Hrun|]. split; [now rewrite length_imap|].
  split; [|split; [|split]].
  - intros k f Hk. split.
    + rewrite list_lookup_imap, Hk. reflexivity.
    + unfold Store.find. rewrite (Hnew k f Hk). reflexivity.
  - intros j p Hj. unfold Store.find in *.
    destruct (Store.rows (db w) !! j) as [row|] eqn:E; [|discriminate].
    rewrite Hold, E; [exact Hj|]. now apply Hinv in E.
  - unfold serve. now rewrite (RouteFacts.list_all (get_with ∅) w').
  - rewrite (RouteFacts.list_all (get_with ∅) w') by reflexivity.
    cbn [fst response_len]. rewrite length_fmap, !StoreFacts.length_all.
    now rewrite Hsize.
Qed.

(** X15.  POST /products echoes the product it was sent: for every product
    serialized into the payload, the body of the 201 carries its name,
    description, availability and the name of its category, a price text
    that reads back as its price, and the identifier that the store
    assigned, whatever identifier the payload carried. *)
Theorem post_echoes_product (p : Product.t) (w : world) :
  Store.find (Store.next_id (db w)) (db w) = None ->
  exists b hs w',
    client_post_json (Product.serialize p) w
    = (inr (Response (JsonObject b) HTTP_201_CREATED hs), w') /\
    b !! "name" = Some (JStr (Product.name p)) /\
    b !! "description" = Some (Product.jopt JStr (Product.description p)) /\
    (exists t, b !! "price" = Some (JStr t) /\
               Dec.of_string t = Some (Product.price p)) /\
    b !! "available" = Some (JBool (Product.available p)) /\
    b !! "category" = Some (JStr (Category.name (Product.category p))) /\
    b !! "id" = Some (JInt (Store.next_id (db w))).
Proof.
  intros Hfree%StoreFacts.find_None.
  eexists _, _, _. split; [apply (TestFacts.post_serialized_run p w Hfree)|].
  repeat split.
  eexists. split; [reflexivity|]. apply DecFacts.of_to_string.
Qed.

(** X16.  The query string that the tests format from a Python boolean
    selects by that boolean: GET /products?available=True answers the
    available products and GET /products?available=False the others, each
    with status 200, and every object of the answer carries that
    availability. *)
Theorem available_of_python_bool (b : bool) (w : world) :
  list_products (get_with {["available" := str_bool b]}) w
  = (inr (Response
            (JsonArray (Product.serialize <$> Store.find_by_availability b (db w)))
            HTTP_200_OK []),
     after w (EvFindByAvailability b)) /\
  Forall (fun o : gmap string jval => o !! "available" = Some (JBool b))
         (Product.serialize <$> Store.find_by_availability b (db w)).
Proof.
  split.
  - rewrite (RouteFacts.list_by_availability _ w (str_bool b));
      try (destruct b; reflexivity).
  - apply Forall_fmap, Forall_forall. intros p Hp.
    unfold Store.find_by_availability in Hp.
    apply StoreFacts.elem_of_filter_all in Hp as [_ <-]. reflexivity.
Qed.


(** X18.  In the model of the table: a successful [create] adds exactly
    one product to [all()], and deleting the product it returned restores
    the rows, so that [all()] is what it was before the [create]. *)
Theorem delete_undoes_create (p p' : Product.t) (s s' : Store.t) :
  Store.create p s = inr (p', s') ->
  length (Store.all s') = S (length (Store.all s)) /\
  Store.rows (Store.delete p' s') = Store.rows s /\
  Store.all (Store.delete p' s') = Store.all s /\
  Store.find (Store.next_id s) (Store.delete p' s') = None.
Proof.
  intros (Hfree & -> & Hrows & Hnext)%StoreFacts.create_inv.
  assert (Hdel : Store.rows (Store.delete (Product.set_id (Some (Store.next_id s)) p) s')
                 = Store.rows s).
  { unfold Store.delete. cbn [Product.id Product.set_id Store.rows].
    rewrite Hrows. now apply delete_insert_id. }
  split; [|split; [exact Hdel|split]].
  - rewrite !StoreFacts.length_all, Hrows. now apply map_size_insert_None.
  - unfold Store.all. now rewrite Hdel.
  - unfold Store.find. now rewrite Hdel, Hfree.
Qed.

(** ** The further properties at sample inputs *)

Lemma post_hammer_into_catalogue :
  is_json (put_of hammer) = true /\
  Product.deserialize Product.new (json (put_of hammer)) = inr hammer /\
  Store.find (Store.next_id (db catalogue)) (db catalogue) = None /\
  length (Store.all (db (create_products (put_of hammer) catalogue).2)) = 2%nat.
Proof.
  split; [reflexivity|]. split; [vm_compute; reflexivity|]. split; [reflexivity|].
  destruct (post_creates_one_row (put_of hammer) catalogue hammer eq_refl
              ltac:(vm_compute; reflexivity) eq_refl)
    as (w' & Hrun & _ & _ & Hlen & _).
  rewrite Hrun. exact Hlen.
Defined.

Lemma post_hammer_without_name :
  Product.deserialize Product.new (base.delete "name" (Product.serialize hammer))
  = inl (ValidationError "Invalid product: missing name") /\
  serve (create_products (Request true (base.delete "name" (Product.serialize hammer)) ∅))
        catalogue
  = (400, World (db catalogue) (trace catalogue ++ [EvGetJson; EvDeserialize])).
Proof.
  split; [vm_compute; reflexivity|].
  apply (post_invalid_is_400
           (Request true (base.delete "name" (Product.serialize hammer)) ∅) catalogue
           (ValidationError "Invalid product: missing name")).
  - reflexivity.
  - vm_compute. reflexivity.
Defined.

Lemma get_after_post_hammer :
  exists b hs w',
    create_products (put_of hammer) catalogue
    = (inr (Response b HTTP_201_CREATED hs), w') /\
    response_id (inr (Response b HTTP_201_CREATED hs)) = Some 2 /\
    get_products 2 w' = (inr (Response b HTTP_200_OK []), after w' (EvFind 2)).
Proof.
  apply (get_after_post (put_of hammer) catalogue hammer);
    [reflexivity | vm_compute; reflexivity | reflexivity].
Defined.

Lemma delete_hammer_then_not_found :
  Store.find 1 (db catalogue) = Some (Product.set_id (Some 1) hammer) /\
  (serve (get_products 1) (delete_products 1 catalogue).2).1 = 404.
Proof.
  split; [reflexivity|].
  destruct (delete_then_not_found 1 catalogue (Product.set_id (Some 1) hammer) eq_refl)
    as (w' & Hrun & _ & _ & _ & Hget & _).
  rewrite Hrun. exact Hget.
Defined.

Lemma put_hammer_without_name :
  serve (update_products 1
           (Request true (base.delete "name" (Product.serialize hammer)) ∅)) catalogue
  = (400, World (db catalogue)
              (trace catalogue ++ [EvFind 1; EvGetJson; EvDeserialize])).
Proof.
  apply (put_invalid_leaves_row 1
           (Request true (base.delete "name" (Product.serialize hammer)) ∅) catalogue
           (Product.set_id (Some 1) hammer)
           (ValidationError "Invalid product: missing name")).
  - reflexivity.
  - reflexivity.
  - vm_compute. reflexivity.
Defined.

Lemma put_brass_hammer_twice :
  (update_products 1 (put_of brass_hammer)
     (update_products 1 (put_of brass_hammer) catalogue).2).1
  = (update_products 1 (put_of brass_hammer) catalogue).1 /\
  db (update_products 1 (put_of brass_hammer)
        (update_products 1 (put_of brass_hammer) catalogue).2).2
  = db (update_products 1 (put_of brass_hammer) catalogue).2.
Proof.
  apply (put_twice_is_put_once 1 (put_of brass_hammer) catalogue
           (Product.set_id (Some 1) hammer) (Product.set_id None brass_hammer)).
  - reflexivity.
  - vm_compute. reflexivity.
Defined.

Lemma get_after_put_brass_hammer :
  exists b w',
    update_products 1 (put_of brass_hammer) catalogue
    = (inr (Response b HTTP_200_OK []), w') /\
    get_products 1 w' = (inr (Response b HTTP_200_OK []), after w' (EvFind 1)).
Proof.
  apply (get_after_put 1 (put_of brass_hammer) catalogue
           (Product.set_id (Some 1) hammer) (Product.set_id None brass_hammer)).
  - reflexivity.
  - reflexivity.
  - vm_compute. reflexivity.
Defined.

(** POST, DELETE, POST: the second hammer is created, under identifier 2. *)
Lemma post_after_post_and_delete :
  (serve (create_products (put_of hammer))
         (run [POST_products (put_of hammer); DELETE_product 1]
              (World Store.empty [])).2).1 = 201.
Proof.
  apply (post_valid_always_created
           [POST_products (put_of hammer); DELETE_product 1]
           (put_of hammer) hammer).
  - reflexivity.
  - vm_compute. reflexivity.
Defined.


(** GET /products?category=BOGUS on the catalogue is the server error. *)
Lemma server_error_on_catalogue :
  exists r k,
    GET_products (get_with {["category" := "BOGUS"]}) = GET_products r /\
    falsy (args r !! "name") /\
    args r !! "category" = Some k /\ k <> "" /\ Category.getitem k = None.
Proof.
  apply (server_error_only_for_unknown_category
           (GET_products (get_with {["category" := "BOGUS"]})) catalogue).
  - intros i r. cbn [catalogue db Store.rows Store.next_id].
    intros [<- _]%lookup_singleton_Some. reflexivity.
  - reflexivity.
Defined.

Lemma create_two_and_list :
  response_len
    (list_products (get_with ∅)
       (_create_products [hammer; brass_hammer] catalogue).2).1 = Some 3%nat.
Proof.
  destruct (created_products_are_listed [hammer; brass_hammer] catalogue)
    as (products & w' & Hrun & _ & _ & _ & _ & Hlen).
  - intros i r. cbn [catalogue db Store.rows Store.next_id].
    intros [<- _]%lookup_singleton_Some. reflexivity.
  - rewrite Hrun. exact Hlen.
Defined.

Lemma post_echoes_brass_hammer :
  exists b hs w',
    client_post_json (Product.serialize brass_hammer) catalogue
    = (inr (Response (JsonObject b) HTTP_201_CREATED hs), w') /\
    b !! "price" = Some (JStr "12.50") /\
    b !! "id" = Some (JInt 2).
Proof.
  destruct (post_echoes_product brass_hammer catalogue eq_refl)
    as (b & hs & w' & Hrun & _ & _ & (t & Ht & _) & _ & _ & Hid).
  exists b, hs, w'. split; [exact Hrun|]. split; [|exact Hid].
  vm_compute in Hrun. injection Hrun as <- _ _. reflexivity.
Defined.


Lemma delete_undoes_create_hammer :
  Store.all (Store.delete (Product.set_id (Some 2) brass_hammer)
               (Store.mk (<[2 := Store.to_row brass_hammer]> (Store.rows (db catalogue))) 3))
  = Store.all (db catalogue).
Proof.
  apply (delete_undoes_create brass_hammer _ (db catalogue) _). reflexivity.
Defined.
